(** * mcp-toolkit: the Gemini/MCP orchestration loop and the weather tools

    A shallow embedding of

    - [src/integrate-with-llm/client-gemini.py]   (class [MCPGeminiClient]),
    - [src/github-mcp/client-gemini-github.py]    (class [GitHubMCPGeminiClient]),
    - [src/weather-mcp-agent/weather_server.py]   ([convert_temperature],
      the two formatters and the two network tools),

    together with the properties the specification states about them.

    Python exceptions are explicit outcomes, the two network peers (the MCP
    tool provider and the Gemini backend) are an oracle over an abstract
    world that is threaded through every call, and every call that leaves
    the process is written to a log, oldest entry first; a tool call is
    logged with the provider's answer. *)

From stdpp Require Import gmap strings list pretty.
From Stdlib Require Import ZArith QArith Qround Qabs Lia Ascii.

Close Scope Q_scope.
Open Scope string_scope.
Set Warnings "-register-all".

(** ** Python exceptions *)

(** An exception instance: the name of its class and its message. *)
Record Exn := mkExn { exn_class : string; exn_msg : string }.

(** The classes that derive from [BaseException] but not from [Exception];
    [except Exception] lets them through. *)
Definition base_only_classes : list string :=
  ["BaseException"; "KeyboardInterrupt"; "SystemExit"; "GeneratorExit";
   "CancelledError"].

Definition is_Exception (e : Exn) : bool :=
  negb (bool_decide (exn_class e ∈ base_only_classes)).

Inductive Outcome (A : Type) : Type :=
| Returns (a : A)
| Raises (e : Exn).
Arguments Returns {A} a.
Arguments Raises {A} e.

Definition ValueError (msg : string) : Exn := mkExn "ValueError" msg.
Definition IndexError : Exn := mkExn "IndexError" "list index out of range".
Definition AttributeError (msg : string) : Exn := mkExn "AttributeError" msg.
(** [pydantic.ValidationError]. *)
Definition ValidationError (msg : string) : Exn := mkExn "ValidationError" msg.

(** ** Data model *)

(** JSON-like values: tool schemas and tool-call arguments. *)
Inductive Value : Type :=
| VNull
| VBool (b : bool)
| VNum (n : Z)
| VStr (s : string)
| VList (l : list Value)
| VDict (kv : list (string * Value)).

(** [mcp.types.Tool], the ToolDescriptor of the specification. *)
Record Tool := mkTool {
  tool_name : string;
  tool_description : string;
  tool_inputSchema : Value }.

(** [types.Schema]: what the library makes of a JSON schema it accepts,
    by the fields it keeps. *)
Record Schema := mkSchema { schema_fields : Value }.

(** [types.FunctionDeclaration]. *)
Record FunctionDeclaration := mkFunctionDeclaration {
  fd_name : string;
  fd_description : string;
  fd_parameters : Schema }.

(** [types.Tool]: a wrapper around a list of declarations. *)
Record GeminiTool := mkGeminiTool {
  function_declarations : list FunctionDeclaration }.

(** [types.FunctionCall]; the argument mapping follows the specification's
    data model (a mapping from string to value). *)
Record FunctionCall := mkFunctionCall {
  fc_name : string;
  fc_args : gmap string Value }.

Record FunctionResponse := mkFunctionResponse {
  fr_name : string;
  fr_response : gmap string Value }.

(** [types.Part]: every payload is an optional attribute. *)
Record Part := mkPart {
  part_text : option string;
  function_call : option FunctionCall;
  function_response : option FunctionResponse }.

(** [types.Content]: one conversation turn. *)
Record Content := mkContent {
  role : option string;
  parts : list Part }.

Record Candidate := mkCandidate { content : Content }.

(** [GenerateContentResponse]; [response_text] is what the library's [.text]
    property yields for the response. *)
Record GenerateContentResponse := mkResponse {
  candidates : list Candidate;
  response_text : option string }.

(** The [contents=] argument of [generate_content]: a bare string, or a list
    whose entries are strings or [Content] turns. *)
Inductive ContentUnion : Type :=
| OfStr (s : string)
| OfContent (c : Content).

Inductive Contents : Type :=
| Single (s : string)
| Several (l : list ContentUnion).

(** [types.GenerateContentConfig], with the two keywords the clients use;
    a keyword that is not passed is [None]. *)
Record GenerateContentConfig := mkConfig {
  config_tools : option (list GeminiTool);
  system_instruction : option string }.

(** The provider's answer to [call_tool]: [{content: [{text}, ...]}]. *)
Record TextContent := mkTextContent { text : string }.

Record CallToolResult := mkCallToolResult {
  result_content : list TextContent;
  isError : bool }.

(** What [connect] opens: the stdio transport (a subprocess and its pipes)
    and the client session on top of it. *)
Record StdioServerParameters := mkParams {
  command : string;
  args : list string;
  env : option (list (string * string)) }.

Inductive Resource : Type :=
| StdioTransport (p : StdioServerParameters)
| SessionContext.

Inductive ClientSession : Type :=
| Session (p : StdioServerParameters).

#[global] Instance StdioServerParameters_eq_dec : EqDecision StdioServerParameters.
Proof. solve_decision. Defined.

#[global] Instance Resource_eq_dec : EqDecision Resource.
Proof. solve_decision. Defined.

(** Closing one handle: the first matching entry goes. *)
Fixpoint close (r : Resource) (open : list Resource) : list Resource :=
  match open with
  | [] => []
  | r' :: rest => if decide (r = r') then rest else r' :: close r rest
  end.

(** ** Observable events *)

Inductive Event : Type :=
| EvEnter (r : Resource)
| EvExit (r : Resource)
| EvInitialize
| EvListTools
| EvCallTool (name : string) (arguments : gmap string Value)
             (answer : Outcome CallToolResult)
| EvGenerate (model : string) (contents : Contents)
             (config : GenerateContentConfig).

(** ** The two scripts *)

Inductive Script : Type :=
| ClientGemini          (* integrate-with-llm/client-gemini.py *)
| ClientGeminiGithub.   (* github-mcp/client-gemini-github.py  *)

(** The attributes of [self].  [MCPGeminiClient] names the key [api_key] and
    the backend handle [client]; [GitHubMCPGeminiClient] names them
    [gemini_key] and [gemini_client] and adds [github_token] and [toolsets],
    which stay empty for the first script. *)
Record Client := mkClient {
  session : option ClientSession;
  exit_stack : list Resource;      (* AsyncExitStack, most recent first *)
  api_key : string;
  model : string;
  github_token : string;
  toolsets : string }.

Definition set_session (s : option ClientSession) (c : Client) : Client :=
  mkClient s (exit_stack c) (api_key c) (model c) (github_token c) (toolsets c).

Definition set_exit_stack (k : list Resource) (c : Client) : Client :=
  mkClient (session c) k (api_key c) (model c) (github_token c) (toolsets c).

(** ** Construction: [__init__] *)

(** [os.getenv] over the process environment (after [load_dotenv]). *)
Definition getenv (environ : gmap string string) (key : string)
  : option string := environ !! key.

Definition getenv_default (environ : gmap string string) (key dflt : string)
  : string := default dflt (environ !! key).

(** [not v] for an optional string: [None] and [""] are falsy. *)
Definition not_str (v : option string) : bool :=
  match v with
  | None => true
  | Some s => bool_decide (s = "")
  end.

Definition github_token_message : string :=
  "GITHUB_PERSONAL_ACCESS_TOKEN is not set in .env file. "
  ++ "Get it from: https://github.com/settings/tokens".

Definition init (s : Script) (environ : gmap string string) : Outcome Client :=
  let key := getenv environ "GEMINI_API_KEY" in
  let mdl := getenv_default environ "GEMINI_MODEL" "gemini-2.5-flash" in
  if not_str key then Raises (ValueError "GEMINI_API_KEY is not set")
  else
    match s with
    | ClientGemini => Returns (mkClient None [] (default "" key) mdl "" "")
    | ClientGeminiGithub =>
        let token := getenv environ "GITHUB_PERSONAL_ACCESS_TOKEN" in
        if not_str token
           || bool_decide (token = Some "your-github-token-here")
        then Raises (ValueError github_token_message)
        else
          Returns
            (mkClient None [] (default "" key) mdl (default "" token)
               (getenv_default environ "GITHUB_TOOLSETS"
                  "repos,issues,pull_requests"))
    end.

(** ** The outside world *)

(** The peers answer as a function of the world they are in, and move it.
    [model_validate] is the one call into the Gemini library that can
    refuse its argument: the validation of [parameters=] against
    [types.Schema] that the constructor of [types.FunctionDeclaration]
    runs.  It yields the [Schema] the declaration stores, or the message of
    the [ValidationError] the constructor raises. *)
Record Peers (W : Type) := mkPeers {
  spawn : StdioServerParameters -> W -> W * Outcome unit;
  initialize : W -> W * Outcome unit;
  list_tools : W -> W * Outcome (list Tool);
  call_tool : string -> gmap string Value -> W -> W * Outcome CallToolResult;
  generate_content :
    string -> Contents -> GenerateContentConfig -> W ->
    W * Outcome GenerateContentResponse;
  model_validate : Value -> Schema + string }.
Arguments spawn {W} _ _ _.
Arguments initialize {W} _ _.
Arguments list_tools {W} _ _.
Arguments call_tool {W} _ _ _ _.
Arguments generate_content {W} _ _ _ _ _.
Arguments model_validate {W} _ _.

Section Orchestration.

Context {W : Type} (peers : Peers W).

(** The machine state of one run. *)
Record State := mkState {
  world : W;
  log : list Event;
  held : list Resource;            (* handles currently open *)
  self : Client }.

Definition set_self (c : Client) (st : State) : State :=
  mkState (world st) (log st) (held st) c.

Definition emit (w : W) (ev : Event) (st : State) : State :=
  mkState w (log st ++ [ev]) (held st) (self st).

(** *** A state-and-exception monad *)

Definition M (A : Type) : Type := State -> State * Outcome A.

Definition ret {A} (a : A) : M A := fun st => (st, Returns a).

Definition raise {A} (e : Exn) : M A := fun st => (st, Raises e).

Definition bind {A B} (m : M A) (k : A -> M B) : M B :=
  fun st =>
    match m st with
    | (st', Returns a) => k a st'
    | (st', Raises e) => (st', Raises e)
    end.

Notation "'let*' x ':=' m 'in' k" := (bind m (fun x => k))
  (at level 10, x pattern, m at level 100, k at level 200).

(** [try: m except Exception as e: h e]. *)
Definition try_except_Exception {A} (m : M A) (h : Exn -> M A) : M A :=
  fun st =>
    match m st with
    | (st', Returns a) => (st', Returns a)
    | (st', Raises e) => if is_Exception e then h e st' else (st', Raises e)
    end.

(** [l[0]]. *)
Definition index0 {A} (l : list A) : M A :=
  match l with
  | x :: _ => ret x
  | [] => raise IndexError
  end.

(** *** Calls on [self.session] and on the Gemini client *)

Definition no_session (attr : string) : Exn :=
  AttributeError ("'NoneType' object has no attribute '" ++ attr ++ "'").

Definition session_initialize : M unit := fun st =>
  match session (self st) with
  | None => (st, Raises (no_session "initialize"))
  | Some _ =>
      let '(w, r) := initialize peers (world st) in (emit w EvInitialize st, r)
  end.

Definition session_list_tools : M (list Tool) := fun st =>
  match session (self st) with
  | None => (st, Raises (no_session "list_tools"))
  | Some _ =>
      let '(w, r) := list_tools peers (world st) in (emit w EvListTools st, r)
  end.

Definition session_call_tool (name : string) (arguments : gmap string Value)
  : M CallToolResult := fun st =>
  match session (self st) with
  | None => (st, Raises (no_session "call_tool"))
  | Some _ =>
      let '(w, r) := call_tool peers name arguments (world st) in
      (emit w (EvCallTool name arguments r) st, r)
  end.

Definition models_generate_content (contents : Contents)
    (config : GenerateContentConfig) : M GenerateContentResponse := fun st =>
  let m := model (self st) in
  let '(w, r) := generate_content peers m contents config (world st) in
  (emit w (EvGenerate m contents config) st, r).

(** *** [get_gemini_tools] *)

(** [types.FunctionDeclaration(name=tool.name,
    description=tool.description, parameters=tool.inputSchema)]: the
    constructor validates the schema and stores what the validation made of
    it, or raises. *)
Definition to_declaration (tool : Tool) : Outcome FunctionDeclaration :=
  match model_validate peers (tool_inputSchema tool) with
  | inl parameters =>
      Returns
        (mkFunctionDeclaration (tool_name tool) (tool_description tool)
           parameters)
  | inr msg => Raises (ValidationError msg)
  end.

(** The list comprehension [[... for tool in tools_result.tools]]: one
    declaration per tool, in order; the first constructor that raises ends
    it. *)
Fixpoint to_declarations (tools : list Tool)
  : Outcome (list FunctionDeclaration) :=
  match tools with
  | [] => Returns []
  | tool :: rest =>
      match to_declaration tool with
      | Raises e => Raises e
      | Returns declaration =>
          match to_declarations rest with
          | Raises e => Raises e
          | Returns declarations => Returns (declaration :: declarations)
          end
      end
  end.

(** A computation that touches neither the peers nor the state. *)
Definition lift {A} (o : Outcome A) : M A := fun st => (st, o).

Definition get_gemini_tools : M (list GeminiTool) :=
  let* tools := session_list_tools in
  let* function_decls := lift (to_declarations tools) in
  ret [mkGeminiTool function_decls].

(** *** [process_query] *)

Definition script_instruction (s : Script) : string :=
  match s with
  | ClientGemini =>
      "You are a workplace assistant with access to a knowledge base of sarcastic/funny responses. "
      ++ "When the user asks a question, ALWAYS check the knowledge base first using the available tool "
      ++ "to see if there's a matching response. If found, use that response."
  | ClientGeminiGithub =>
      "You are a GitHub assistant with access to GitHub's API via MCP tools. "
      ++ "You can help with repositories, issues, pull requests, code search, and more. "
      ++ "When users ask about GitHub operations, use the available tools to fetch real data."
  end.

(** [dict(part.function_call.args)]: a fresh dictionary with the same
    entries. *)
Definition dict (m : gmap string Value) : gmap string Value := m.

(** [types.Part.from_function_response(name=..., response=...)]. *)
Definition from_function_response (name : string)
    (response : gmap string Value) : Part :=
  mkPart None None (Some (mkFunctionResponse name response)).

(** The body of [for part in parts:], with the two locals it updates.  The
    [print] calls of the GitHub script write to standard output only. *)
Fixpoint dispatch (ps : list Part) (tool_parts : list Part)
    (tool_called : bool) : M (list Part * bool) :=
  match ps with
  | [] => ret (tool_parts, tool_called)
  | part :: rest =>
      match function_call part with
      | Some fc =>
          let fn_name := fc_name fc in
          let arguments := dict (fc_args fc) in
          let* result := session_call_tool fn_name arguments in
          let* first := index0 (result_content result) in
          dispatch rest
            (tool_parts ++
               [from_function_response fn_name
                  {[ "result" := VStr (text first) ]}])
            true
      | None => dispatch rest tool_parts tool_called
      end
  end.

Definition first_config (s : Script) (tools : list GeminiTool)
  : GenerateContentConfig :=
  mkConfig (Some tools) (Some (script_instruction s)).

Definition followup_contents (query : string) (turn : Content)
    (tool_parts : list Part) : Contents :=
  Several [OfStr query; OfContent turn;
           OfContent (mkContent (Some "tool") tool_parts)].

Definition followup_config (s : Script) : GenerateContentConfig :=
  mkConfig None (Some (script_instruction s)).

Definition process_query (s : Script) (query : string) : M (option string) :=
  let* tools := get_gemini_tools in
  let* response :=
    models_generate_content (Single query) (first_config s tools) in
  let* candidate := index0 (candidates response) in
  let* (tool_parts, tool_called) :=
    dispatch (parts (content candidate)) [] false in
  if negb tool_called then ret (response_text response)
  else
    let* followup :=
      models_generate_content
        (followup_contents query (content candidate) tool_parts)
        (followup_config s) in
    ret (response_text followup).

(** *** Session lifecycle: [connect_to_server], [connect_to_github_mcp],
    [cleanup] *)

(** [await self.exit_stack.enter_async_context(cm)]: run [cm.__aenter__] and,
    when it returns, push [cm] on the stack.  Entering the stdio transport
    starts the server process; entering the session starts no peer call. *)
Definition enter_async_context (r : Resource) : M unit := fun st =>
  let '(w, o) :=
    match r with
    | StdioTransport p => spawn peers p (world st)
    | SessionContext => (world st, Returns tt)
    end in
  match o with
  | Returns _ =>
      (mkState w (log st ++ [EvEnter r]) (r :: held st)
         (set_exit_stack (r :: exit_stack (self st)) (self st)),
       Returns tt)
  | Raises e => (mkState w (log st) (held st) (self st), Raises e)
  end.

(** [await self.exit_stack.aclose()]: leave every entered context, most
    recent first, and empty the stack. *)
Definition aclose : M unit := fun st =>
  let entered := exit_stack (self st) in
  (mkState (world st) (log st ++ map EvExit entered)
     (foldl (fun open r => close r open) (held st) entered)
     (set_exit_stack [] (self st)),
   Returns tt).

Definition server_params (s : Script) (server_script_path : string)
    (c : Client) : StdioServerParameters :=
  match s with
  | ClientGemini => mkParams "python" [server_script_path] None
  | ClientGeminiGithub =>
      mkParams "/usr/local/bin/docker"
        ["run"; "-i"; "--rm";
         "-e"; "GITHUB_PERSONAL_ACCESS_TOKEN";
         "-e"; "GITHUB_TOOLSETS";
         "ghcr.io/github/github-mcp-server"]
        (Some [("GITHUB_PERSONAL_ACCESS_TOKEN", github_token c);
               ("GITHUB_TOOLSETS", toolsets c)])
  end.

Definition assign_session (v : ClientSession) : M unit := fun st =>
  (set_self (set_session (Some v) (self st)) st, Returns tt).

(** [connect_to_server] for the first script ([server_script_path] is its
    argument) and [connect_to_github_mcp] for the second (which takes none);
    the tool names are then printed. *)
Definition connect (s : Script) (server_script_path : string) : M unit :=
  fun st =>
    let p := server_params s server_script_path (self st) in
    (let* _ := enter_async_context (StdioTransport p) in
     let* _ := enter_async_context SessionContext in
     let* _ := assign_session (Session p) in
     let* _ := session_initialize in
     let* _ := session_list_tools in
     ret tt) st.

Definition cleanup : M unit := aclose.

(** *** [main] *)

(** What is left when the script ends. *)
Record Final := mkFinal {
  final_world : W;
  final_log : list Event;
  final_held : list Resource }.

Definition observe (st : State) : Final :=
  mkFinal (world st) (log st) (held st).

(** [for query in queries: try: ... except Exception as e: print(...)]. *)
Fixpoint each_query (s : Script) (queries : list string) : M unit :=
  match queries with
  | [] => ret tt
  | query :: rest =>
      let* _ :=
        try_except_Exception
          (let* _ := process_query s query in ret tt)
          (fun _ => ret tt) in
      each_query s rest
  end.

Definition main_body (s : Script) : M unit :=
  match s with
  | ClientGemini =>
      let* _ := connect s "server.py" in
      let query := "Hey, how are you doing?" in
      let* _ := process_query s query in
      cleanup
  | ClientGeminiGithub =>
      let* _ := connect s "" in
      let queries :=
        ["List my recent repositories";
         "Show me open issues in my repositories"] in
      let* _ := each_query s queries in
      cleanup
  end.

Definition main (s : Script) (environ : gmap string string) (w : W)
  : Final * Outcome unit :=
  match init s environ with
  | Raises e => (mkFinal w [] [], Raises e)
  | Returns client =>
      let '(st, o) := main_body s (mkState w [] [] client) in (observe st, o)
  end.

End Orchestration.

Arguments State W : clear implicits.
Arguments Final W : clear implicits.

(** ** The weather server: [weather_server.py] *)

Module WeatherServer.

(** What [convert_temperature] uses of Python's [str] and [float].  The
    division operator is built from [is_zero] and [quotient] below. *)
Record Builtins (F : Type) := mkBuiltins {
  strip : string -> string;             (* s.strip() *)
  lower : string -> string;             (* s.lower() *)
  title : string -> string;             (* s.title() *)
  float_of_str : string -> option F;    (* float(s); None is ValueError *)
  float_str : F -> string;              (* f"{x}" *)
  float_2f : F -> string;               (* f"{x:.2f}" *)
  float_of_int : Z -> F;                (* an int operand, as a float *)
  float_273_15 : F;                     (* the literal 273.15 *)
  fadd : F -> F -> F;
  fsub : F -> F -> F;
  fmul : F -> F -> F;
  is_zero : F -> bool;
  quotient : F -> F -> F }.
Arguments strip {F} _ _.
Arguments lower {F} _ _.
Arguments title {F} _ _.
Arguments float_of_str {F} _ _.
Arguments float_str {F} _ _.
Arguments float_2f {F} _ _.
Arguments float_of_int {F} _ _.
Arguments float_273_15 {F} _.
Arguments fadd {F} _ _ _.
Arguments fsub {F} _ _ _.
Arguments fmul {F} _ _ _.
Arguments is_zero {F} _ _.
Arguments quotient {F} _ _ _.

Definition ZeroDivisionError : Exn :=
  mkExn "ZeroDivisionError" "float division by zero".

Definition and_then {A B} (o : Outcome A) (k : A -> Outcome B) : Outcome B :=
  match o with
  | Returns a => k a
  | Raises e => Raises e
  end.

(** [try: o except Exception as e: h e], without state. *)
Definition try_except {A} (o : Outcome A) (h : Exn -> Outcome A) : Outcome A :=
  match o with
  | Returns a => Returns a
  | Raises e => if is_Exception e then h e else Raises e
  end.

(** Division is the only operation that can raise, and what it raises is
    an [Exception]. *)
Definition benign {A} (o : Outcome A) : Prop :=
  (exists a, o = Returns a) \/ o = Raises ZeroDivisionError.

Definition newline : string := String (Ascii.ascii_of_nat 10) "".

Definition valid_units : list string :=
  ["celsius"; "fahrenheit"; "kelvin"; "c"; "f"; "k"].

Section Tools.

Context {F : Type} (py : Builtins F).

(** [x / y] on floats. *)
Definition truediv (x y : F) : Outcome F :=
  if is_zero py y then Raises ZeroDivisionError else Returns (quotient py x y).

Definition celsius_to_fahrenheit (celsius : F) : Outcome F :=
  and_then (truediv (fmul py celsius (float_of_int py 9)) (float_of_int py 5))
    (fun q => Returns (fadd py q (float_of_int py 32))).

Definition fahrenheit_to_celsius (fahrenheit : F) : Outcome F :=
  truediv
    (fmul py (fsub py fahrenheit (float_of_int py 32)) (float_of_int py 5))
    (float_of_int py 9).

Definition kelvin_to_celsius (kelvin : F) : Outcome F :=
  Returns (fsub py kelvin (float_273_15 py)).

Definition kelvin_to_fahrenheit (kelvin : F) : Outcome F :=
  and_then
    (truediv (fmul py (fsub py kelvin (float_273_15 py)) (float_of_int py 9))
       (float_of_int py 5))
    (fun q => Returns (fadd py q (float_of_int py 32))).

(** [not s.strip()]. *)
Definition blank (s : string) : bool := bool_decide (strip py s = "").

Definition is_valid_unit (u : string) : bool :=
  bool_decide (u ∈ valid_units).

(** [x if u == short else u]. *)
Definition normalize (short long u : string) : string :=
  if bool_decide (u = short) then long else u.

Definition symbol (unit : string) : string :=
  if bool_decide (unit = "celsius") then "°C"
  else if bool_decide (unit = "fahrenheit") then "°F" else "K".

Definition convert_temperature (temperature from_unit to_unit : string)
  : Outcome string :=
  if blank temperature then
    Returns "❌ Error: Temperature value is required"
  else if blank from_unit || blank to_unit then
    Returns "❌ Error: Both from_unit and to_unit are required"
  else
    let from_unit := lower py from_unit in
    let to_unit := lower py to_unit in
    if negb (is_valid_unit from_unit) || negb (is_valid_unit to_unit) then
      Returns
        "❌ Error: Units must be 'celsius'/'c', 'fahrenheit'/'f', or 'kelvin'/'k'"
    else
      match float_of_str py temperature with
      | None =>
          Returns ("❌ Error: Invalid temperature value: " ++ temperature)
      | Some temp_value =>
          let from_unit := normalize "c" "celsius" from_unit in
          let from_unit := normalize "f" "fahrenheit" from_unit in
          let from_unit := normalize "k" "kelvin" from_unit in
          let to_unit := normalize "c" "celsius" to_unit in
          let to_unit := normalize "f" "fahrenheit" to_unit in
          let to_unit := normalize "k" "kelvin" to_unit in
          if bool_decide (from_unit = to_unit) then
            Returns
              ("✅ " ++ float_str py temp_value ++ "° " ++ title py from_unit
               ++ " = " ++ float_str py temp_value ++ "° " ++ title py to_unit)
          else
            try_except
              (and_then
                 (if bool_decide (from_unit = "celsius") then
                    Returns temp_value
                  else if bool_decide (from_unit = "fahrenheit") then
                    fahrenheit_to_celsius temp_value
                  else kelvin_to_celsius temp_value)
                 (fun celsius =>
                    and_then
                      (if bool_decide (to_unit = "celsius") then
                         Returns celsius
                       else if bool_decide (to_unit = "fahrenheit") then
                         celsius_to_fahrenheit celsius
                       else Returns (fadd py celsius (float_273_15 py)))
                      (fun result =>
                         Returns
                           ("🌡️ **Temperature Conversion**" ++ newline
                            ++ float_str py temp_value ++ symbol from_unit
                            ++ " = " ++ float_2f py result
                            ++ symbol to_unit))))
              (fun e => Returns ("❌ Error: " ++ exn_msg e))
      end.

End Tools.

End WeatherServer.

(** ** A decimal stand-in for the built-ins

    Exact rationals in place of binary64, ASCII in place of Unicode, and
    plain decimal literals in place of the whole grammar of [float]: enough
    to run [convert_temperature] on everyday inputs. *)

Module Decimal.

Import WeatherServer.

Definition code (c : ascii) : Z := Z.of_nat (Ascii.nat_of_ascii c).

Definition is_space (c : ascii) : bool :=
  let n := code c in
  ((9 <=? n) && (n <=? 13) || (28 <=? n) && (n <=? 32))%Z.

Definition is_upper (c : ascii) : bool := ((65 <=? code c) && (code c <=? 90))%Z.
Definition is_lower (c : ascii) : bool := ((97 <=? code c) && (code c <=? 122))%Z.

Definition shift (d : Z) (c : ascii) : ascii :=
  Ascii.ascii_of_nat (Z.to_nat (code c + d)).

Definition to_lower (c : ascii) : ascii := if is_upper c then shift 32 c else c.
Definition to_upper (c : ascii) : ascii := if is_lower c then shift (-32) c else c.

Fixpoint lstrip (s : string) : string :=
  match s with
  | String c rest => if is_space c then lstrip rest else s
  | EmptyString => EmptyString
  end.

Definition str_strip (s : string) : string :=
  String.rev (lstrip (String.rev (lstrip s))).

Fixpoint str_lower (s : string) : string :=
  match s with
  | String c rest => String (to_lower c) (str_lower rest)
  | EmptyString => EmptyString
  end.

(** [inside] tells whether the previous character was a letter. *)
Fixpoint title_from (inside : bool) (s : string) : string :=
  match s with
  | String c rest =>
      let letter := is_upper c || is_lower c in
      String (if inside then to_lower c else to_upper c) (title_from letter rest)
  | EmptyString => EmptyString
  end.

Definition str_title (s : string) : string := title_from false s.

(** A run of decimal digits: its value and its length, [None] on any other
    character. *)
Fixpoint digits (s : string) (value : Z) (len : nat) : option (Z * nat) :=
  match s with
  | EmptyString => Some (value, len)
  | String c rest =>
      let n := code c in
      if ((48 <=? n) && (n <=? 57))%Z
      then digits rest (10 * value + (n - 48))%Z (S len)
      else None
  end.

Fixpoint split_dot (s : string) : string * option string :=
  match s with
  | EmptyString => (EmptyString, None)
  | String c rest =>
      if bool_decide (c = "."%char) then (EmptyString, Some rest)
      else let '(whole, frac) := split_dot rest in (String c whole, frac)
  end.

Definition unsigned (s : string) : option Q :=
  let '(whole, frac) := split_dot s in
  match digits whole 0 0, digits (default "" frac) 0 0 with
  | Some (w, wl), Some (f, fl) =>
      if bool_decide (wl + fl = 0)%nat then None
      else Some (Qred (Qmake (w * 10 ^ Z.of_nat fl + f)
                             (Z.to_pos (10 ^ Z.of_nat fl))))
  | _, _ => None
  end.

Definition parse (s : string) : option Q :=
  match str_strip s with
  | String "-" rest => Qopp <$> unsigned rest
  | String "+" rest => unsigned rest
  | t => unsigned t
  end.

Definition pad (width : nat) (s : string) : string :=
  String.concat "" (replicate (width - String.length s) "0") ++ s.

Fixpoint drop_zeros (keep : nat) (rev_digits : string) : string :=
  match rev_digits with
  | String "0" rest =>
      if bool_decide (keep < String.length rev_digits)%nat
      then drop_zeros keep rest else rev_digits
  | _ => rev_digits
  end.

Definition sign (q : Q) : string := if (Qnum q <? 0)%Z then "-" else "".

(** Up to seventeen fractional digits, at least one. *)
Definition show (q : Q) : string :=
  let m := Qfloor (Qabs q * inject_Z (10 ^ 17))%Q in
  sign q ++ pretty (m / 10 ^ 17)%Z ++ "."
  ++ String.rev (drop_zeros 1 (String.rev (pad 17 (pretty (m mod 10 ^ 17)%Z)))).

(** Two fractional digits, ties to even. *)
Definition show_2f (q : Q) : string :=
  let x := (Qabs q * inject_Z 100)%Q in
  let lo := Qfloor x in
  let n :=
    match Qcompare (x - inject_Z lo)%Q (1 # 2)%Q with
    | Lt => lo
    | Gt => (lo + 1)%Z
    | Eq => if Z.even lo then lo else (lo + 1)%Z
    end in
  sign q ++ pretty (n / 100)%Z ++ "." ++ pad 2 (pretty (n mod 100)%Z).

Definition builtins : Builtins Q :=
  mkBuiltins Q str_strip str_lower str_title parse show show_2f
    inject_Z (27315 # 100)%Q Qplus Qminus Qmult
    (fun q => (Qnum q =? 0)%Z) Qdiv.

End Decimal.


(** ** Scripted peers

    A provider and a backend that follow a fixed script; the world counts
    the completions served so far. *)

Module Scripted.

Record Scenario := mkScenario {
  catalog : list Tool;
  first_answer : Outcome GenerateContentResponse;
  second_answer : Outcome GenerateContentResponse;
  provider : string -> gmap string Value -> Outcome CallToolResult }.

(** A validation in the manner of [types.Schema], which forbids fields it
    does not declare: a dictionary with a "$schema" or a "$defs" key is
    refused, any other dictionary is kept as it is.  The messages are the
    error lines of the library's report, without its heading. *)
Definition extra_forbidden (parameters : Value) : Schema + string :=
  match parameters with
  | VDict kv =>
      if bool_decide ("$schema" ∈ kv.*1 ∨ "$defs" ∈ kv.*1)
      then inr "Extra inputs are not permitted"
      else inl (mkSchema parameters)
  | _ =>
      inr "Input should be a valid dictionary or object to extract fields from"
  end.

Definition peers (sc : Scenario) : Peers nat :=
  mkPeers nat
    (fun _ w => (w, Returns tt))
    (fun w => (w, Returns tt))
    (fun w => (w, Returns (catalog sc)))
    (fun name arguments w => (w, provider sc name arguments))
    (fun _ _ _ w =>
       (S w, match w with O => first_answer sc | S _ => second_answer sc end))
    extra_forbidden.

Definition int_schema : Value :=
  VDict [("type", VStr "object");
         ("properties",
          VDict [("a", VDict [("type", VStr "integer")]);
                 ("b", VDict [("type", VStr "integer")])]);
         ("required", VList [VStr "a"; VStr "b"])].

(** The two tools of [basic-setup/server.py]. *)
Definition calculator_tools : list Tool :=
  [mkTool "add" "Add two numbers" int_schema;
   mkTool "substract" "Substract two numbers" int_schema].

(** What the constructor makes of them. *)
Definition calculator_decls : list FunctionDeclaration :=
  [mkFunctionDeclaration "add" "Add two numbers" (mkSchema int_schema);
   mkFunctionDeclaration "substract" "Substract two numbers"
     (mkSchema int_schema)].

(** A catalog whose second tool carries the "$schema" key that schema
    generators write. *)
Definition draft07_schema : Value :=
  VDict [("$schema", VStr "http://json-schema.org/draft-07/schema#");
         ("type", VStr "object");
         ("properties", VDict [("q", VDict [("type", VStr "string")])])].

Definition draft07_tools : list Tool :=
  [mkTool "add" "Add two numbers" int_schema;
   mkTool "search" "Search the notes" draft07_schema].

Definition says (t : string) (is_error : bool) : Outcome CallToolResult :=
  Returns (mkCallToolResult [mkTextContent t] is_error).

(** The calculator server; a name it does not know is answered with an
    error result, as the server framework does. *)
Definition calculator (name : string) (arguments : gmap string Value)
  : Outcome CallToolResult :=
  match arguments !! "a", arguments !! "b" with
  | Some (VNum a), Some (VNum b) =>
      if bool_decide (name = "add") then says (pretty (a + b)%Z) false
      else if bool_decide (name = "substract") then says (pretty (a - b)%Z) false
      else says ("Unknown tool: " ++ name) true
  | _, _ => says ("Error executing tool " ++ name) true
  end.

Definition call (name : string) (a b : Z) : Part :=
  mkPart None
    (Some (mkFunctionCall name {[ "a" := VNum a; "b" := VNum b ]})) None.

Definition says_text (t : string) : Part := mkPart (Some t) None None.

Definition turn_of (ps : list Part) : Content := mkContent (Some "model") ps.

Definition response_of (ps : list Part) (t : option string)
  : GenerateContentResponse := mkResponse [mkCandidate (turn_of ps)] t.

Definition model_turn (ps : list Part) (t : option string)
  : Outcome GenerateContentResponse := Returns (response_of ps t).

Definition key : string := "test-key".

(** A client after a successful [connect]. *)
Definition connected (s : Script) : Client :=
  let blank := mkClient None [] key "gemini-2.5-flash" "ghp_test" "repos" in
  let p := server_params s "server.py" blank in
  mkClient (Some (Session p)) [SessionContext; StdioTransport p]
    key "gemini-2.5-flash" "ghp_test" "repos".

Definition start (s : Script) : State nat :=
  let p := server_params s "server.py" (connected s) in
  mkState 0 [] [SessionContext; StdioTransport p] (connected s).

(** "2+3, then 9-4": two function calls, both answered. *)
Definition two_calls_parts : list Part :=
  [call "add" 2 3; says_text "and"; call "substract" 9 4].

Definition two_calls_tool_parts : list Part :=
  [from_function_response "add" {[ "result" := VStr "5" ]};
   from_function_response "substract" {[ "result" := VStr "5" ]}].

Definition two_calls : Scenario :=
  mkScenario calculator_tools
    (model_turn two_calls_parts None)
    (model_turn [says_text "5 and 5"] (Some "5 and 5"))
    calculator.

(** "hello": text only. *)
Definition text_only : Scenario :=
  mkScenario calculator_tools
    (model_turn [says_text "Hi there"] (Some "Hi there"))
    (model_turn [] None)
    calculator.

Definition connection_closed : Exn := mkExn "McpError" "Connection closed".

(** The provider raises on every call. *)
Definition failing_parts : list Part :=
  [call "add" 2 3; call "substract" 9 4].

Definition provider_raises : Scenario :=
  mkScenario calculator_tools
    (model_turn failing_parts None)
    (model_turn [says_text "never asked"] (Some "never asked"))
    (fun _ _ => Raises connection_closed).



(** The provider answers with an empty content list, or with two items. *)
Definition empty_content : Scenario :=
  mkScenario calculator_tools
    (model_turn [call "add" 2 3] None)
    (model_turn [says_text "never asked"] (Some "never asked"))
    (fun _ _ => Returns (mkCallToolResult [] false)).

Definition two_items : Scenario :=
  mkScenario calculator_tools
    (model_turn [call "add" 2 3] None)
    (model_turn [says_text "5"] (Some "5"))
    (fun _ _ =>
       Returns (mkCallToolResult [mkTextContent "5"; mkTextContent "carry 0"]
                  false)).

(** The provider lists a tool with a "$schema" key. *)
Definition draft07 : Scenario :=
  mkScenario draft07_tools
    (model_turn [says_text "never asked"] (Some "never asked"))
    (model_turn [] None)
    calculator.

Definition api_error : Exn := mkExn "ServerError" "503 UNAVAILABLE".

(** The backend is down. *)
Definition backend_down : Scenario :=
  mkScenario calculator_tools (Raises api_error) (Raises api_error) calculator.

Definition environ : gmap string string :=
  {[ "GEMINI_API_KEY" := key; "GITHUB_PERSONAL_ACCESS_TOKEN" := "ghp_test" ]}.

(** The runs the statements below are checked on. *)
Definition ask (sc : Scenario) (query : string)
  : State nat * Outcome (option string) :=
  process_query (peers sc) ClientGemini query (start ClientGemini).

Definition run_two_calls := ask two_calls "2+3 and 9-4".
Definition run_text_only := ask text_only "hello".
Definition run_provider_raises := ask provider_raises "2+3 and 9-4".
Definition run_empty_content := ask empty_content "2+3".
Definition run_two_items := ask two_items "2+3".

Definition main_without_key : Final nat * Outcome unit :=
  main (peers two_calls) ClientGemini ∅ 0.

Definition main_backend_down : Final nat * Outcome unit :=
  main (peers backend_down) ClientGemini environ 0.

End Scripted.

(** ** Vocabulary of the statements *)

(** The function-call parts of a turn, in order. *)
Definition function_calls (ps : list Part) : list FunctionCall :=
  omap function_call ps.

(** The log entry of dispatching [fc] and getting [answer]. *)
Definition invoke (fc : FunctionCall) (answer : Outcome CallToolResult)
  : Event := EvCallTool (fc_name fc) (fc_args fc) answer.

(** The provider returned, with at least one content item. *)
Definition completes (answer : Outcome CallToolResult) : Prop :=
  ∃ r first more, answer = Returns r ∧ result_content r = first :: more.

(** The answer that ends the loop with exception [e]. *)
Definition aborts (answer : Outcome CallToolResult) (e : Exn) : Prop :=
  answer = Raises e
  ∨ ∃ r, answer = Returns r ∧ result_content r = [] ∧ e = IndexError.

(** The function-response part built for [fc] from [answer]. *)
Definition tool_part_for (fc : FunctionCall) (answer : Outcome CallToolResult)
    (p : Part) : Prop :=
  ∃ r first more,
    answer = Returns r ∧ result_content r = first :: more
    ∧ p = from_function_response (fc_name fc)
            {[ "result" := VStr (text first) ]}.

(** The library accepts the input schema of [tool]. *)
Definition accepted {W} (peers : Peers W) (tool : Tool) : Prop :=
  ∃ parameters, model_validate peers (tool_inputSchema tool) = inl parameters.

(** [d] is what the constructor returns for [tool]: its name, its
    description, and the [Schema] the validation made of its input
    schema. *)
Definition declares {W} (peers : Peers W) (tool : Tool)
    (d : FunctionDeclaration) : Prop :=
  fd_name d = tool_name tool
  ∧ fd_description d = tool_description tool
  ∧ model_validate peers (tool_inputSchema tool) = inl (fd_parameters d).

(** The tools advertised with a list of declarations. *)
Definition declared (function_decls : list FunctionDeclaration)
  : list GeminiTool := [mkGeminiTool function_decls].

Definition first_request (s : Script) (c : Client) (query : string)
    (function_decls : list FunctionDeclaration) : Event :=
  EvGenerate (model c) (Single query) (first_config s (declared function_decls)).

Definition followup_request (s : Script) (c : Client) (query : string)
    (turn : Content) (tool_parts : list Part) : Event :=
  EvGenerate (model c) (followup_contents query turn tool_parts)
    (followup_config s).

Definition is_generate (ev : Event) : bool :=
  match ev with EvGenerate _ _ _ => true | _ => false end.

Definition is_call_tool (ev : Event) : bool :=
  match ev with EvCallTool _ _ _ => true | _ => false end.

Definition is_exit (ev : Event) : bool :=
  match ev with EvExit _ => true | _ => false end.

(** The entries a run added to the log. *)
Definition added {W} (before after : State W) : list Event :=
  drop (length (log before)) (log after).

Open Scope nat_scope.
Open Scope list_scope.

Section RunVocabulary.

Context {W : Type} (peers : Peers W).

Implicit Types (st : State W) (fcs : list FunctionCall).

(** What a run of the loop over the calls [fcs] leaves behind, given the
    answers the provider gave. *)
Definition dispatch_post fcs (acc : list Part) (called : bool) st
    (run : State W * Outcome (list Part * bool))
    (answers : list (Outcome CallToolResult)) : Prop :=
  log run.1 = log st ++ zip_with invoke fcs answers
  ∧ length answers ≤ length fcs
  ∧ self run.1 = self st
  ∧ held run.1 = held st
  ∧ match run.2 with
    | Returns (tool_parts, tool_called) =>
        length answers = length fcs
        ∧ (∃ new, tool_parts = acc ++ new
                  ∧ Forall3 tool_part_for fcs answers new)
        ∧ tool_called = called || bool_decide (fcs ≠ [])
    | Raises e =>
        ∃ before last, answers = before ++ [last]
                       ∧ Forall completes before ∧ aborts last e
    end.

Definition after_first_request (s : Script) (query : string) st
    (function_decls : list FunctionDeclaration) (w : W) : State W :=
  mkState w
    (log st ++ [EvListTools; first_request s (self st) query function_decls])
    (held st) (self st).

(** How the run of a query ended. *)
Inductive Ending (s : Script) (query : string) st (resp : GenerateContentResponse)
    (turn : Content) (fcs : list FunctionCall)
    (answers : list (Outcome CallToolResult))
    (run : State W * Outcome (option string)) : list Event -> Prop :=
| Aborted e before last :
    run.2 = Raises e ->
    answers = before ++ [last] ->
    Forall completes before ->
    aborts last e ->
    Ending s query st resp turn fcs answers run []
| Answered :
    fcs = [] ->
    answers = [] ->
    run.2 = Returns (response_text resp) ->
    Ending s query st resp turn fcs answers run []
| FollowedUp tool_parts w reply :
    fcs ≠ [] ->
    Forall3 tool_part_for fcs answers tool_parts ->
    (generate_content peers (model (self st))
       (followup_contents query turn tool_parts) (followup_config s) w).2
      = reply ->
    run.2 = match reply with
            | Returns followup => Returns (response_text followup)
            | Raises e => Raises e
            end ->
    Ending s query st resp turn fcs answers run
      [followup_request s (self st) query turn tool_parts].

(** The peers raise nothing but [Exception]s. *)
Definition polite : Prop :=
  (forall w e, (list_tools peers w).2 = Raises e -> is_Exception e = true)
  ∧ (forall name arguments w e,
       (call_tool peers name arguments w).2 = Raises e ->
       is_Exception e = true)
  ∧ (forall m contents config w e,
       (generate_content peers m contents config w).2 = Raises e ->
       is_Exception e = true).

(** What a query never touches: [self], the open handles, and the exits
    already logged. *)
Definition framed st (st' : State W) : Prop :=
  self st' = self st
  ∧ held st' = held st
  ∧ filter is_exit (log st') = filter is_exit (log st).

(** A run that respects the frame and raises nothing but [Exception]s. *)
Definition safe {A} st (run : State W * Outcome A) : Prop :=
  framed st run.1
  ∧ forall e, polite -> run.2 = Raises e -> is_Exception e = true.

End RunVocabulary.

(** ** Vocabulary of the lifecycle and of what a query sends out *)

Definition is_enter (ev : Event) : bool :=
  match ev with EvEnter _ => true | _ => false end.

Definition is_list_tools (ev : Event) : bool :=
  match ev with EvListTools => true | _ => false end.


(** The provider's results rewritten by [g] on their way to the client. *)
Definition blur_answer (g : CallToolResult -> CallToolResult)
    (answer : Outcome CallToolResult) : Outcome CallToolResult :=
  match answer with
  | Returns r => Returns (g r)
  | Raises e => Raises e
  end.

Definition blur_peers {W} (g : CallToolResult -> CallToolResult)
    (peers : Peers W) : Peers W :=
  mkPeers W (spawn peers) (initialize peers) (list_tools peers)
    (fun name arguments w =>
       (( call_tool peers name arguments w).1,
        blur_answer g (call_tool peers name arguments w).2))
    (generate_content peers) (model_validate peers).

Definition blur_event (g : CallToolResult -> CallToolResult) (ev : Event)
  : Event :=
  match ev with
  | EvCallTool name arguments answer =>
      EvCallTool name arguments (blur_answer g answer)
  | _ => ev
  end.

(** [g] keeps what [result.content[0].text] evaluates to. *)
Definition keeps_first_text (g : CallToolResult -> CallToolResult) : Prop :=
  forall r,
    text <$> head (result_content (g r)) = text <$> head (result_content r).

(** The same state with another log. *)
Definition relog {W} (l : list Event) (st : State W) : State W :=
  mkState (world st) l (held st) (self st).

(** [m2] does what [m1] does, except that the tool answers it logs went
    through [g]: same result, same world, same client, and the same entries
    added to whatever log it started with. *)
Definition shadows {W A} (g : CallToolResult -> CallToolResult)
    (m1 m2 : State W -> State W * Outcome A) : Prop :=
  forall st l,
    ∃ evs,
      log (m1 st).1 = log st ++ evs
      ∧ m2 (relog l st)
        = (relog (l ++ map (blur_event g) evs) (m1 st).1, (m1 st).2).

(** Peers with some answers replaced. *)
Module Faults.

Import Scripted.

Definition with_list_tools {W} (answer : Outcome (list Tool)) (p : Peers W)
  : Peers W :=
  mkPeers W (spawn p) (initialize p) (fun w => (w, answer)) (call_tool p)
    (generate_content p) (model_validate p).


Definition cancelled : Exn := mkExn "CancelledError" "".

Definition handshake_refused : Exn := mkExn "McpError" "Connection closed".

(** The backend call is cancelled. *)
Definition backend_cancelled : Scenario :=
  mkScenario calculator_tools (Raises cancelled) (Raises cancelled) calculator.

(** A response with an empty list of candidates. *)
Definition no_candidates : Scenario :=
  mkScenario calculator_tools (Returns (mkResponse [] None))
    (Returns (mkResponse [] None)) calculator.

(** Drop everything but the first content item and clear the error flag. *)
Definition first_item_only (r : CallToolResult) : CallToolResult :=
  mkCallToolResult (take 1 (result_content r)) false.

Definition fresh (s : Script) : State nat :=
  mkState 0 [] []
    (mkClient None [] key "gemini-2.5-flash"
       (match s with ClientGemini => "" | ClientGeminiGithub => "ghp_test" end)
       (match s with
        | ClientGemini => ""
        | ClientGeminiGithub => "repos,issues,pull_requests"
        end)).

End Faults.

(** ** Temperature scales

    The six unit names [convert_temperature] accepts, scale by scale, and
    the unit helpers of the module by pair of scales. *)

Module Scales.

Import WeatherServer.

Inductive Scale : Type := Celsius | Fahrenheit | Kelvin.

Definition name (sc : Scale) : string :=
  match sc with
  | Celsius => "celsius"
  | Fahrenheit => "fahrenheit"
  | Kelvin => "kelvin"
  end.

Definition letter (sc : Scale) : string :=
  match sc with Celsius => "c" | Fahrenheit => "f" | Kelvin => "k" end.

(** [unit] is one of the two spellings of [sc]. *)
Definition spells (sc : Scale) (unit : string) : Prop :=
  unit = name sc \/ unit = letter sc.

Definition unit_symbol (sc : Scale) : string :=
  match sc with Celsius => "°C" | Fahrenheit => "°F" | Kelvin => "K" end.

(** From one scale to another with the helpers of lines 29-43; to Kelvin
    there is no helper, the tool adds 273.15 to the Celsius value. *)
Definition between {F} (py : Builtins F) (a b : Scale) (x : F) : Outcome F :=
  match a, b with
  | Celsius, Fahrenheit => celsius_to_fahrenheit py x
  | Fahrenheit, Celsius => fahrenheit_to_celsius py x
  | Kelvin, Celsius => kelvin_to_celsius py x
  | Kelvin, Fahrenheit => kelvin_to_fahrenheit py x
  | Celsius, Kelvin => Returns (fadd py x (float_273_15 py))
  | Fahrenheit, Kelvin =>
      and_then (fahrenheit_to_celsius py x)
        (fun celsius => Returns (fadd py celsius (float_273_15 py)))
  | _, _ => Returns x
  end.

(** The three assignments that replace a letter by the full name. *)
Definition full_name (unit : string) : string :=
  normalize "k" "kelvin"
    (normalize "f" "fahrenheit" (normalize "c" "celsius" unit)).

End Scales.

(** ** The weather reports: [format_weather_data], [format_forecast_data],
    [get_current_weather], [get_forecast] *)

Module OpenWeather.

Import WeatherServer.

#[local] Open Scope string_scope.

(** What [response.json()] delivers.  A dictionary lists its entries in
    insertion order and has no key twice. *)
Inductive Json (F : Type) : Type :=
| JNone
| JBool (b : bool)
| JInt (n : Z)
| JFloat (x : F)
| JStr (s : string)
| JList (items : list (Json F))
| JDict (entries : list (string * Json F)).
Arguments JNone {F}.
Arguments JBool {F} b.
Arguments JInt {F} n.
Arguments JFloat {F} x.
Arguments JStr {F} s.
Arguments JList {F} items.
Arguments JDict {F} entries.

Definition TypeError (msg : string) : Exn := mkExn "TypeError" msg.
Definition OverflowError (msg : string) : Exn := mkExn "OverflowError" msg.
Definition OSError (msg : string) : Exn := mkExn "OSError" msg.
(** [str(KeyError(0))] is ["0"]. *)
Definition KeyError (key : string) : Exn := mkExn "KeyError" key.
Definition string_IndexError : Exn :=
  mkExn "IndexError" "string index out of range".

(** What [datetime.fromtimestamp] raises for a number it cannot place:
    [OverflowError], [OSError] or [ValueError], with its message. *)
Inductive RangeError : Type :=
| OutOfRange (msg : string)
| PlatformError (msg : string)
| InvalidValue (msg : string).

Definition raised (e : RangeError) : Exn :=
  match e with
  | OutOfRange msg => OverflowError msg
  | PlatformError msg => OSError msg
  | InvalidValue msg => ValueError msg
  end.

(** What the two formatters use of Python beyond [Builtins]; [DT] is
    [datetime]. *)
Record Formatting (F DT : Type) := mkFormatting {
  chars : string -> list string;           (* list(s) *)
  repr : Json F -> string;                 (* str(v) of a list or a dict *)
  float_of_Z : Z -> option F;              (* float(n); None is OverflowError *)
  float_1f : F -> string;                  (* f"{x:.1f}" *)
  localtime : Z + F -> DT + RangeError;    (* datetime.fromtimestamp(x) *)
  strftime : DT -> string -> string }.     (* dt.strftime(fmt) *)
Arguments chars {F DT} _ _.
Arguments repr {F DT} _ _.
Arguments float_of_Z {F DT} _ _.
Arguments float_1f {F DT} _ _.
Arguments localtime {F DT} _ _.
Arguments strftime {F DT} _ _ _.

(** [d.get(key)] on the entries of a dictionary. *)
Fixpoint lookup_key {A} (key : string) (entries : list (string * A))
  : option A :=
  match entries with
  | [] => None
  | (k, v) :: rest => if bool_decide (k = key) then Some v else lookup_key key rest
  end.

Section Formatters.

Context {F DT : Type} (py : Builtins F) (fm : Formatting F DT).

Notation "'let?' x ':=' o 'in' k" := (and_then o (fun x => k))
  (at level 10, x pattern, o at level 100, k at level 200).

(** [type(v).__name__]. *)
Definition type_name (v : Json F) : string :=
  match v with
  | JNone => "NoneType"
  | JBool _ => "bool"
  | JInt _ => "int"
  | JFloat _ => "float"
  | JStr _ => "str"
  | JList _ => "list"
  | JDict _ => "dict"
  end.

(** [v.get(key, dflt)]: only a dictionary has the method. *)
Definition get (v : Json F) (key : string) (dflt : Json F)
  : Outcome (Json F) :=
  match v with
  | JDict entries => Returns (default dflt (lookup_key key entries))
  | _ =>
      Raises
        (AttributeError ("'" ++ type_name v ++ "' object has no attribute 'get'"))
  end.

(** [v[0]]. *)
Definition getitem0 (v : Json F) : Outcome (Json F) :=
  match v with
  | JList items =>
      match items with
      | first :: _ => Returns first
      | [] => Raises IndexError
      end
  | JStr s =>
      match chars fm s with
      | first :: _ => Returns (JStr first)
      | [] => Raises string_IndexError
      end
  | JDict _ => Raises (KeyError "0")
  | _ => Raises (TypeError ("'" ++ type_name v ++ "' object is not subscriptable"))
  end.

(** [v.title()]. *)
Definition title_of (v : Json F) : Outcome string :=
  match v with
  | JStr s => Returns (title py s)
  | _ =>
      Raises
        (AttributeError
           ("'" ++ type_name v ++ "' object has no attribute 'title'"))
  end.

(** [f"{n:.1f}"] for an int: through [float(n)]. *)
Definition int_1f (n : Z) : Outcome string :=
  match float_of_Z fm n with
  | Some x => Returns (float_1f fm x)
  | None => Raises (OverflowError "int too large to convert to float")
  end.

(** [f"{v:.1f}"]. *)
Definition format_1f (v : Json F) : Outcome string :=
  match v with
  | JFloat x => Returns (float_1f fm x)
  | JInt n => int_1f n
  | JBool b => int_1f (if b then 1 else 0)
  | JStr _ =>
      Raises (ValueError "Unknown format code 'f' for object of type 'str'")
  | _ =>
      Raises
        (TypeError
           ("unsupported format string passed to " ++ type_name v
            ++ ".__format__"))
  end.

(** [f"{v}"], that is [str(v)]. *)
Definition str (v : Json F) : string :=
  match v with
  | JNone => "None"
  | JBool b => if b then "True" else "False"
  | JInt n => pretty n
  | JFloat x => float_str py x
  | JStr s => s
  | JList _ | JDict _ => repr fm v
  end.

(** [bool(v)]. *)
Definition truthy (v : Json F) : bool :=
  match v with
  | JNone => false
  | JBool b => b
  | JInt n => negb (bool_decide (n = 0%Z))
  | JFloat x => negb (is_zero py x)
  | JStr s => negb (bool_decide (s = ""))
  | JList items => negb (bool_decide (items = []))
  | JDict entries => negb (bool_decide (entries = []))
  end.

(** What [for item in v] goes through. *)
Definition iter (v : Json F) : Outcome (list (Json F)) :=
  match v with
  | JList items => Returns items
  | JStr s => Returns (JStr <$> chars fm s)
  | JDict entries => Returns (JStr <$> entries.*1)
  | _ => Raises (TypeError ("'" ++ type_name v ++ "' object is not iterable"))
  end.

Definition place (x : Z + F) : Outcome DT :=
  match localtime fm x with
  | inl dt => Returns dt
  | inr e => Raises (raised e)
  end.

(** [datetime.fromtimestamp(v)]. *)
Definition fromtimestamp (v : Json F) : Outcome DT :=
  match v with
  | JInt n => place (inl n)
  | JBool b => place (inl (if b then 1 else 0)%Z)
  | JFloat x => place (inr x)
  | _ =>
      Raises
        (TypeError
           ("'" ++ type_name v ++ "' object cannot be interpreted as an integer"))
  end.

Definition format_weather_data (data : Json F) (units : string)
  : Outcome string :=
  try_except
    (let? city := get data "name" (JStr "Unknown") in
     let? sys := get data "sys" (JDict []) in
     let? country := get sys "country" (JStr "") in
     let? main := get data "main" (JDict []) in
     let? temp := get main "temp" (JInt 0) in
     let? feels_like := get main "feels_like" (JInt 0) in
     let? temp_min := get main "temp_min" (JInt 0) in
     let? temp_max := get main "temp_max" (JInt 0) in
     let? weathers := get data "weather" (JList [JDict []]) in
     let? weather := getitem0 weathers in
     let? described := get weather "description" (JStr "") in
     let? description := title_of described in
     let? humidity := get main "humidity" (JInt 0) in
     let? pressure := get main "pressure" (JInt 0) in
     let? wind := get data "wind" (JDict []) in
     let? wind_speed := get wind "speed" (JInt 0) in
     let? cloud_cover := get data "clouds" (JDict []) in
     let? clouds := get cloud_cover "all" (JInt 0) in
     let temp_unit := if bool_decide (units = "metric") then "°C" else "°F" in
     let speed_unit := if bool_decide (units = "metric") then "m/s" else "mph" in
     let? temp_1f := format_1f temp in
     let? feels_like_1f := format_1f feels_like in
     let? temp_min_1f := format_1f temp_min in
     let? temp_max_1f := format_1f temp_max in
     let? wind_speed_1f := format_1f wind_speed in
     Returns
       ("🌍 **" ++ str city ++ ", " ++ str country ++ "**" ++ newline
        ++ newline
        ++ "🌡️ **Temperature:** " ++ temp_1f ++ temp_unit ++ newline
        ++ "   Feels like: " ++ feels_like_1f ++ temp_unit ++ newline
        ++ "   Min: " ++ temp_min_1f ++ temp_unit
        ++ " | Max: " ++ temp_max_1f ++ temp_unit ++ newline
        ++ newline
        ++ "☁️ **Conditions:** " ++ description ++ newline
        ++ "💧 **Humidity:** " ++ str humidity ++ "%" ++ newline
        ++ "🌪️ **Wind Speed:** " ++ wind_speed_1f ++ " " ++ speed_unit
        ++ newline
        ++ "📊 **Pressure:** " ++ str pressure ++ " hPa" ++ newline
        ++ "☁️ **Cloudiness:** " ++ str clouds ++ "%"))
    (fun e => Returns ("❌ Error formatting weather data: " ++ exn_msg e)).

(** The body of [for item in forecast_list:], with the two locals it
    updates. *)
Fixpoint forecast_lines (items : list (Json F)) (temp_unit : string)
    (result current_date : string) : Outcome string :=
  match items with
  | [] => Returns result
  | item :: rest =>
      let? stamp := get item "dt" (JInt 0) in
      let? dt := fromtimestamp stamp in
      let date_str := strftime fm dt "%Y-%m-%d" in
      let time_str := strftime fm dt "%H:%M" in
      let new_day := negb (bool_decide (date_str = current_date)) in
      let result :=
        if new_day then
          (if negb (bool_decide (current_date = ""))
           then result ++ newline else result)
          ++ "📆 **" ++ strftime fm dt "%A, %B %d" ++ "**" ++ newline
        else result in
      let current_date := if new_day then date_str else current_date in
      let? main := get item "main" (JDict []) in
      let? temp := get main "temp" (JInt 0) in
      let? weathers := get item "weather" (JList [JDict []]) in
      let? weather := getitem0 weathers in
      let? described := get weather "description" (JStr "") in
      let? description := title_of described in
      let? temp_1f := format_1f temp in
      forecast_lines rest temp_unit
        (result ++ "  ⏰ " ++ time_str ++ ": " ++ temp_1f ++ temp_unit
         ++ " - " ++ description ++ newline)
        current_date
  end.

Definition format_forecast_data (data : Json F) (units : string)
  : Outcome string :=
  try_except
    (let? city_of := get data "city" (JDict []) in
     let? city := get city_of "name" (JStr "Unknown") in
     let? country_of := get data "city" (JDict []) in
     let? country := get country_of "country" (JStr "") in
     let? forecast_list := get data "list" (JList []) in
     if negb (truthy forecast_list) then
       Returns "❌ No forecast data available"
     else
       let temp_unit := if bool_decide (units = "metric") then "°C" else "°F" in
       let result :=
         "📅 **5-Day Forecast for " ++ str city ++ ", " ++ str country ++ "**"
         ++ newline ++ newline in
       let? items := iter forecast_list in
       forecast_lines items temp_unit result "")
    (fun e => Returns ("❌ Error formatting forecast data: " ++ exn_msg e)).

End Formatters.

(** *** The HTTP layer *)

Definition BASE_URL : string := "https://api.openweathermap.org/data/2.5".

(** What the [try] block of a tool can raise: [httpx.HTTPStatusError] with
    the status code of its [response], or anything else. *)
Inductive Raised : Type :=
| HTTPStatusError (response_status_code : Z)
| Other (e : Exn).

Inductive Attempt (A : Type) : Type :=
| Done (a : A)
| Failed (r : Raised).
Arguments Done {A} a.
Arguments Failed {A} r.

(** [client.get(url, params=..., timeout=...)]. *)
Record Request := mkRequest {
  url : string;
  params : list (string * string);
  timeout : Z }.

(** [httpx.Response]: [json] is what [response.json()] does. *)
Record Response (F : Type) := mkHttpResponse {
  status_code : Z;
  json : Attempt (Json F) }.
Arguments mkHttpResponse {F} _ _.
Arguments status_code {F} _.
Arguments json {F} _.

(** The network answers as a function of the world it is in, and moves it;
    [is_success] tells the status codes [raise_for_status] lets through. *)
Record Httpx (F W : Type) := mkHttpx {
  http_get : Request -> W -> W * Attempt (Response F);
  is_success : Z -> bool }.
Arguments http_get {F W} _ _ _.
Arguments is_success {F W} _ _.

(** The state of one tool call: the world and the requests sent so far,
    oldest first. *)
Record Wire (W : Type) := mkWire {
  net : W;
  sent : list Request }.
Arguments mkWire {W} _ _.
Arguments net {W} _.
Arguments sent {W} _.

Section Tools.

Context {F DT W : Type} (py : Builtins F) (fm : Formatting F DT).
Context (httpx : Httpx F W) (environ : gmap string string).

(** Line 24. *)
Definition API_KEY : string :=
  getenv_default environ "OPENWEATHER_API_KEY" "".

Definition and_next {A B} (a : Attempt A) (k : A -> Attempt B) : Attempt B :=
  match a with
  | Done x => k x
  | Failed r => Failed r
  end.

Definition of_outcome {A} (o : Outcome A) : Attempt A :=
  match o with
  | Returns a => Done a
  | Raises e => Failed (Other e)
  end.

(** [await client.get(...)] inside [async with httpx.AsyncClient()]. *)
Definition client_get (request : Request) (st : Wire W)
  : Wire W * Attempt (Response F) :=
  let '(w, reply) := http_get httpx request (net st) in
  (mkWire w (sent st ++ [request]), reply).

Definition raise_for_status (response : Response F) : Attempt unit :=
  if is_success httpx (status_code response) then Done tt
  else Failed (HTTPStatusError (status_code response)).

Definition get_current_weather (city units : string) (st : Wire W)
  : Wire W * Outcome string :=
  if blank py city then
    (st, Returns "❌ Error: City name is required")
  else if blank py API_KEY then
    (st,
     Returns
       "❌ Error: OPENWEATHER_API_KEY not configured. Please set it in Docker secrets.")
  else if negb (bool_decide (units ∈ ["metric"; "imperial"])) then
    (st,
     Returns
       "❌ Error: Units must be 'metric' (Celsius) or 'imperial' (Fahrenheit)")
  else
    let '(st', reply) :=
      client_get
        (mkRequest (BASE_URL ++ "/weather")
           [("q", city); ("appid", API_KEY); ("units", units)] 10)
        st in
    (st',
     match
       and_next reply (fun response =>
       and_next (raise_for_status response) (fun _ =>
       and_next (json response) (fun data =>
       of_outcome (format_weather_data py fm data units))))
     with
     | Done answer => Returns answer
     | Failed (HTTPStatusError code) =>
         if bool_decide (code = 404%Z) then
           Returns ("❌ City not found: " ++ city)
         else if bool_decide (code = 401%Z) then
           Returns "❌ Invalid API key. Please check your OPENWEATHER_API_KEY."
         else Returns ("❌ API Error: " ++ pretty code)
     | Failed (Other e) =>
         if is_Exception e then Returns ("❌ Error: " ++ exn_msg e)
         else Raises e
     end).

Definition get_forecast (city units : string) (st : Wire W)
  : Wire W * Outcome string :=
  if blank py city then
    (st, Returns "❌ Error: City name is required")
  else if blank py API_KEY then
    (st,
     Returns
       "❌ Error: OPENWEATHER_API_KEY not configured. Please set it in Docker secrets.")
  else if negb (bool_decide (units ∈ ["metric"; "imperial"])) then
    (st,
     Returns
       "❌ Error: Units must be 'metric' (Celsius) or 'imperial' (Fahrenheit)")
  else
    let '(st', reply) :=
      client_get
        (mkRequest (BASE_URL ++ "/forecast")
           [("q", city); ("appid", API_KEY); ("units", units)] 10)
        st in
    (st',
     match
       and_next reply (fun response =>
       and_next (raise_for_status response) (fun _ =>
       and_next (json response) (fun data =>
       of_outcome (format_forecast_data py fm data units))))
     with
     | Done answer => Returns answer
     | Failed (HTTPStatusError code) =>
         if bool_decide (code = 404%Z) then
           Returns ("❌ City not found: " ++ city)
         else if bool_decide (code = 401%Z) then
           Returns "❌ Invalid API key. Please check your OPENWEATHER_API_KEY."
         else Returns ("❌ API Error: " ++ pretty code)
     | Failed (Other e) =>
         if is_Exception e then Returns ("❌ Error: " ++ exn_msg e)
         else Raises e
     end).

End Tools.

End OpenWeather.

(** ** A stand-in for the formatters' built-ins, and a scripted network

    As in [Decimal]: exact rationals, ASCII, and a calendar in UTC for the
    years 1000 to 9999. *)

Module Sample.

Import WeatherServer OpenWeather Decimal.

#[local] Open Scope string_scope.

(** One fractional digit, ties to even. *)
Definition show_1f (q : Q) : string :=
  let x := (Qabs q * inject_Z 10)%Q in
  let lo := Qfloor x in
  let n :=
    match Qcompare (x - inject_Z lo)%Q (1 # 2)%Q with
    | Lt => lo
    | Gt => (lo + 1)%Z
    | Eq => if Z.even lo then lo else (lo + 1)%Z
    end in
  sign q ++ pretty (n / 10)%Z ++ "." ++ pretty (n mod 10)%Z.

Definition bytes (s : string) : list string :=
  (fun c => String c "") <$> String.list_ascii_of_string s.

Definition quoted (s : string) : string := "'" ++ s ++ "'".

Fixpoint py_repr (v : Json Q) : string :=
  match v with
  | JNone => "None"
  | JBool b => if b then "True" else "False"
  | JInt n => pretty n
  | JFloat x => show x
  | JStr s => quoted s
  | JList items => "[" ++ String.concat ", " (map py_repr items) ++ "]"
  | JDict entries =>
      "{"
      ++ String.concat ", "
           (map (fun entry => quoted entry.1 ++ ": " ++ py_repr entry.2) entries)
      ++ "}"
  end.

(** Year, month and day of a day number counted from 1970-01-01. *)
Definition civil_from_days (days : Z) : Z * Z * Z :=
  let z := (days + 719468)%Z in
  let era := (z / 146097)%Z in
  let doe := (z - era * 146097)%Z in
  let yoe := ((doe - doe / 1460 + doe / 36524 - doe / 146096) / 365)%Z in
  let doy := (doe - (365 * yoe + yoe / 4 - yoe / 100))%Z in
  let mp := ((5 * doy + 2) / 153)%Z in
  let d := (doy - (153 * mp + 2) / 5 + 1)%Z in
  let m := (if mp <? 10 then mp + 3 else mp - 9)%Z in
  ((if m <=? 2 then yoe + era * 400 + 1 else yoe + era * 400)%Z, m, d).

Definition day_names : list string :=
  ["Thursday"; "Friday"; "Saturday"; "Sunday"; "Monday"; "Tuesday";
   "Wednesday"].

Definition month_names : list string :=
  ["January"; "February"; "March"; "April"; "May"; "June"; "July"; "August";
   "September"; "October"; "November"; "December"].

Definition two (n : Z) : string := pad 2 (pretty n).

(** The three formats the forecast uses; the seconds count from the epoch. *)
Definition utc_strftime (t : Z) (fmt : string) : string :=
  let days := (t / 86400)%Z in
  let '(y, m, d) := civil_from_days days in
  if bool_decide (fmt = "%Y-%m-%d") then
    pretty y ++ "-" ++ two m ++ "-" ++ two d
  else if bool_decide (fmt = "%H:%M") then
    two (t mod 86400 / 3600) ++ ":" ++ two (t mod 3600 / 60)
  else if bool_decide (fmt = "%A, %B %d") then
    default "" (day_names !! Z.to_nat (days mod 7)) ++ ", "
    ++ default "" (month_names !! Z.to_nat (m - 1)) ++ " " ++ two d
  else fmt.

Definition utc (x : Z + Q) : Z + RangeError :=
  let t := match x with inl n => n | inr q => Qfloor q end in
  if ((-30610224000 <=? t) && (t <? 253402300800))%Z then inl t
  else inr (OutOfRange "timestamp out of range for platform time_t").

(** [float(n)]: integers beyond the largest float overflow. *)
Definition to_float (n : Z) : option Q :=
  if (Z.abs n <? 2 ^ 1024 - 2 ^ 970)%Z then Some (inject_Z n) else None.

Definition formatting : Formatting Q Z :=
  mkFormatting Q Z bytes py_repr to_float show_1f utc utc_strftime.

(** The network: every request gets [reply], and the world counts the
    requests served; a status is a success from 200 to 299. *)
Definition answering (reply : Attempt (Response Q)) : Httpx Q nat :=
  mkHttpx Q nat (fun _ w => (S w, reply))
    (fun code => ((200 <=? code) && (code <=? 299))%Z).

Definition idle : Wire nat := mkWire 0 [].

Definition environ : gmap string string :=
  {[ "OPENWEATHER_API_KEY" := "0123456789abcdef" ]}.

(** A current-weather body, as the API documents it. *)
Definition london : Json Q :=
  JDict
    [("weather",
      JList [JDict [("id", JInt 803); ("main", JStr "Clouds");
                    ("description", JStr "broken clouds")]]);
     ("main",
      JDict [("temp", JFloat (1234 # 100)%Q); ("feels_like", JFloat (1162 # 100)%Q);
             ("temp_min", JFloat (1093 # 100)%Q); ("temp_max", JFloat (1341 # 100)%Q);
             ("pressure", JInt 1021); ("humidity", JInt 78)]);
     ("wind", JDict [("speed", JFloat (412 # 100)%Q); ("deg", JInt 250)]);
     ("clouds", JDict [("all", JInt 75)]);
     ("sys", JDict [("country", JStr "GB")]);
     ("name", JStr "London")].

(** The same place with an empty list of conditions. *)
Definition no_conditions : list (string * Json Q) :=
  [("weather", JList []);
   ("main", JDict [("temp", JFloat (1234 # 100)%Q); ("humidity", JInt 78)]);
   ("sys", JDict [("country", JStr "GB")]);
   ("name", JStr "London")].

Definition slot (dt : Z) (temp : Json Q) (description : string) : Json Q :=
  JDict [("dt", JInt dt); ("main", JDict [("temp", temp)]);
         ("weather", JList [JDict [("description", JStr description)]])].

(** A forecast body: two slots on 4 November 2024 and one on the 5th. *)
Definition paris : Json Q :=
  JDict
    [("city", JDict [("name", JStr "Paris"); ("country", JStr "FR")]);
     ("list",
      JList [slot 1730725200 (JFloat (987 # 100)%Q) "light rain";
             slot 1730736000 (JFloat (112 # 10)%Q) "overcast clouds";
             slot 1730768400 (JInt 8) "clear sky"])].

Definition no_slots : list (string * Json Q) :=
  [("city", JDict [("name", JStr "Paris"); ("country", JStr "FR")]);
   ("list", JList [])].

Definition not_found : Response Q :=
  mkHttpResponse 404
    (Done (JDict [("cod", JStr "404"); ("message", JStr "city not found")])).

Definition timed_out : Exn := mkExn "ReadTimeout" "The read operation timed out".

End Sample.

(** ** Vocabulary of the weather reports *)

Module Reports.

Import WeatherServer OpenWeather.

(** [o] returns a value that is [good], or raises an [Exception]. *)
Definition within {A} (good : A -> Prop) (o : Outcome A) : Prop :=
  match o with
  | Returns a => good a
  | Raises e => is_Exception e = true
  end.

(** A key that is absent, or bound to a dictionary. *)
Definition dict_or_absent {F} (key : string) (entries : list (string * Json F))
  : Prop :=
  forall v, lookup_key key entries = Some v -> exists d, v = JDict d.

(** The arguments pass the three guards of a tool. *)
Definition admitted {F} (py : Builtins F) (environ : gmap string string)
    (city units : string) : Prop :=
  blank py city = false
  /\ blank py (API_KEY environ) = false
  /\ units ∈ ["metric"; "imperial"].

(** The request a tool sends for [path]. *)
Definition request_for (environ : gmap string string) (path city units : string)
  : Request :=
  mkRequest (BASE_URL ++ path)%string
    [("q", city); ("appid", API_KEY environ); ("units", units)] 10.

(** Neither the request nor the decoding of a body raises anything but an
    [Exception]. *)
Definition courteous {F W} (httpx : Httpx F W) : Prop :=
  forall request w,
    match (http_get httpx request w).2 with
    | Failed (Other e) => is_Exception e = true
    | Failed (HTTPStatusError _) => True
    | Done response =>
        match json response with
        | Failed (Other e) => is_Exception e = true
        | _ => True
        end
    end.

(** What a tool makes of the network's reply: the rest of its [try] block,
    with [format] for the formatter it calls, and its two [except]
    clauses. *)
Definition answer_of {F W} (httpx : Httpx F W)
    (format : Json F -> Outcome string) (city : string)
    (reply : Attempt (Response F)) : Outcome string :=
  match
    and_next reply (fun response =>
    and_next (raise_for_status httpx response) (fun _ =>
    and_next (json response) (fun data => of_outcome (format data))))
  with
  | Done answer => Returns answer
  | Failed (HTTPStatusError code) =>
      if bool_decide (code = 404%Z) then
        Returns ("❌ City not found: " ++ city)%string
      else if bool_decide (code = 401%Z) then
        Returns "❌ Invalid API key. Please check your OPENWEATHER_API_KEY."
      else Returns ("❌ API Error: " ++ pretty code)%string
  | Failed (Other e) =>
      if is_Exception e then Returns ("❌ Error: " ++ exn_msg e)%string
      else Raises e
  end.

End Reports.

(** * Properties *)

Section Loop.

Context {W : Type} (peers : Peers W).

Implicit Types (st : State W) (ps : list Part) (fcs : list FunctionCall).

(** ** One peer call at a time *)

Lemma session_list_tools_run st :
  is_Some (session (self st)) ->
  session_list_tools peers st =
    (emit (list_tools peers (world st)).1 EvListTools st,
     (list_tools peers (world st)).2).
Proof.
  intros [v Hv]. unfold session_list_tools. rewrite Hv.
  by destruct (list_tools peers (world st)).
Qed.

Lemma session_call_tool_run st name arguments :
  is_Some (session (self st)) ->
  let answer := (call_tool peers name arguments (world st)).2 in
  session_call_tool peers name arguments st =
    (emit (call_tool peers name arguments (world st)).1
       (EvCallTool name arguments answer) st,
     answer).
Proof.
  intros [v Hv]. unfold session_call_tool. rewrite Hv.
  by destruct (call_tool peers name arguments (world st)).
Qed.

Lemma models_generate_content_run st contents config :
  models_generate_content peers contents config st =
    (emit (generate_content peers (model (self st)) contents config (world st)).1
       (EvGenerate (model (self st)) contents config) st,
     (generate_content peers (model (self st)) contents config (world st)).2).
Proof.
  unfold models_generate_content.
  by destruct (generate_content peers (model (self st)) contents config (world st)).
Qed.

(** ** The catalog adapter *)

Lemma to_declarations_returns tools decls :
  to_declarations peers tools = Returns decls ->
  Forall2 (declares peers) tools decls.
Proof.
  revert decls. induction tools as [|tool rest IH]; intros decls; cbn.
  { intros [= <-]. constructor. }
  unfold to_declaration.
  destruct (model_validate peers (tool_inputSchema tool)) as [parameters|msg]
    eqn:Hvalid; [|done].
  destruct (to_declarations peers rest) as [ds|e]; [|done].
  intros [= <-]. constructor; [done|by apply IH].
Qed.

Lemma to_declarations_accepted tools :
  Forall (accepted peers) tools ->
  ∃ decls, to_declarations peers tools = Returns decls.
Proof.
  induction 1 as [|tool rest [parameters Hvalid] _ [ds IH]]; cbn;
    [by eexists|].
  unfold to_declaration. rewrite Hvalid, IH. by eexists.
Qed.

Lemma to_declarations_refused before tool after msg :
  Forall (accepted peers) before ->
  model_validate peers (tool_inputSchema tool) = inr msg ->
  to_declarations peers (before ++ tool :: after)
  = Raises (ValidationError msg).
Proof.
  intros Hbefore Hrefused.
  induction Hbefore as [|first rest [parameters Hvalid] _ IH]; cbn.
  - unfold to_declaration. by rewrite Hrefused.
  - unfold to_declaration at 1. by rewrite Hvalid, IH.
Qed.

(** What the comprehension raises is a [ValidationError], for the first
    tool whose schema is refused. *)
Lemma to_declarations_raises tools e :
  to_declarations peers tools = Raises e ->
  ∃ before tool after msg,
    tools = before ++ tool :: after
    ∧ Forall (accepted peers) before
    ∧ model_validate peers (tool_inputSchema tool) = inr msg
    ∧ e = ValidationError msg.
Proof.
  induction tools as [|tool rest IH]; cbn; [done|].
  unfold to_declaration.
  destruct (model_validate peers (tool_inputSchema tool)) as [parameters|msg]
    eqn:Hvalid.
  - destruct (to_declarations peers rest) as [ds|e'] eqn:Hrest; [done|].
    intros [= <-].
    destruct (IH eq_refl) as (before & tool' & after & msg & -> & Hb & Hr & ->).
    exists (tool :: before), tool', after, msg.
    split_and!; [done| |done|done].
    constructor; [by exists parameters|done].
  - intros [= <-]. by exists [], tool, rest, msg.
Qed.

Lemma to_declarations_raises_Exception tools e :
  to_declarations peers tools = Raises e -> is_Exception e = true.
Proof.
  by intros (? & ? & ? & ? & _ & _ & _ & ->)%to_declarations_raises.
Qed.

Lemma get_gemini_tools_run st w tools :
  is_Some (session (self st)) ->
  list_tools peers (world st) = (w, Returns tools) ->
  get_gemini_tools peers st
  = (emit w EvListTools st,
     match to_declarations peers tools with
     | Returns decls => Returns (declared decls)
     | Raises e => Raises e
     end).
Proof.
  intros Hs Hlist. unfold get_gemini_tools, bind.
  rewrite session_list_tools_run by done. rewrite Hlist. cbn [fst snd].
  unfold lift, ret. by destruct (to_declarations peers tools).
Qed.

(** C4, as the code has it.  The adapter asks the library for one
    declaration per listed tool, in order.  When the library accepts every
    input schema, the result is one [types.Tool] holding exactly N
    declarations, the i-th with the name and the description of the i-th
    tool and with the [Schema] the library made of its input schema.  When
    the library refuses a schema, the adapter raises the
    [ValidationError] of the first tool it refuses and returns no
    declaration. *)
Theorem get_gemini_tools_preserves_catalog st w tools :
  is_Some (session (self st)) ->
  list_tools peers (world st) = (w, Returns tools) ->
  (Forall (accepted peers) tools ->
   ∃ decls,
     get_gemini_tools peers st
       = (emit w EvListTools st, Returns [mkGeminiTool decls])
     ∧ length decls = length tools
     ∧ forall i tool,
         tools !! i = Some tool ->
         ∃ d, decls !! i = Some d
              ∧ fd_name d = tool_name tool
              ∧ fd_description d = tool_description tool
              ∧ model_validate peers (tool_inputSchema tool)
                = inl (fd_parameters d))
  ∧ (forall before tool after msg,
       tools = before ++ tool :: after ->
       Forall (accepted peers) before ->
       model_validate peers (tool_inputSchema tool) = inr msg ->
       get_gemini_tools peers st
       = (emit w EvListTools st, Raises (ValidationError msg))).
Proof.
  intros Hs Hlist. rewrite (get_gemini_tools_run st w tools) by done. split.
  - intros [decls Hdecls]%to_declarations_accepted. rewrite Hdecls.
    apply to_declarations_returns in Hdecls.
    exists decls. split_and!; [done|symmetry; by eapply Forall2_length|].
    intros i tool Hi.
    destruct (Forall2_lookup_l _ _ _ _ _ Hdecls Hi) as (d & Hd & ? & ? & ?).
    by exists d.
  - intros before tool after msg -> Hbefore Hrefused.
    by rewrite (to_declarations_refused before tool after msg).
Qed.

(** ** The dispatch loop *)

Lemma dispatch_log ps : forall acc called st,
  is_Some (session (self st)) ->
  ∃ answers,
    dispatch_post (function_calls ps) acc called st
      (dispatch peers ps acc called st) answers.
Proof.
  induction ps as [|part rest IH]; intros acc called st Hs.
  - exists []. unfold dispatch_post; cbn.
    rewrite !app_nil_r, orb_false_r.
    split_and!; try done.
    exists []. split; [by rewrite app_nil_r | constructor].
  - unfold function_calls. cbn [dispatch omap list_omap].
    destruct (function_call part) as [fc|] eqn:Hfc; [|by apply IH].
    fold (function_calls rest).
    unfold bind at 1. rewrite session_call_tool_run by done. cbn zeta.
    unfold dict.
    destruct (call_tool peers (fc_name fc) (fc_args fc) (world st))
      as [w [r|e]] eqn:Hcall; cbn [fst snd].
    + unfold bind at 1.
      destruct (result_content r) as [|first more] eqn:Hcontent; cbn [index0].
      * exists [Returns r]. unfold dispatch_post, raise; cbn.
        rewrite zip_with_nil_r.
        split_and!; [done|lia|done|done|].
        exists [], (Returns r). split_and!; [done|constructor|].
        right. by exists r.
      * unfold ret at 1.
        set (st1 := emit w (EvCallTool (fc_name fc) (fc_args fc) (Returns r)) st).
        destruct (IH (acc ++ [from_function_response (fc_name fc)
                               {[ "result" := VStr (text first) ]}]) true st1)
          as (answers & Hlog & Hlen & Hself & Hheld & Hout); [done|].
        exists (Returns r :: answers). unfold dispatch_post.
        rewrite Hlog, Hself, Hheld. cbn [length zip_with].
        split_and!; [subst st1; cbn; by rewrite <- app_assoc|lia|done|done|].
        destruct (dispatch peers rest _ true st1).2
          as [[tool_parts tool_called]|e].
        -- destruct Hout as (Hk & (new & -> & Hnew) & ->).
           split_and!; [lia| |by rewrite orb_true_r].
           eexists (_ :: new). split; [by rewrite <- app_assoc|].
           constructor; [|done]. by exists r, first, more.
        -- destruct Hout as (before & last & -> & Hbefore & Hlast).
           exists (Returns r :: before), last. split_and!; [done| |done].
           constructor; [|done]. by exists r, first, more.
    + exists [Raises e]. unfold dispatch_post; cbn.
      rewrite zip_with_nil_r.
      split_and!; [done|lia|done|done|].
      exists [], (Raises e). split_and!; [done|constructor|by left].
Qed.

(** Without a function-call part the loop calls nobody. *)
Lemma dispatch_no_calls ps : forall acc called st,
  function_calls ps = [] ->
  dispatch peers ps acc called st = (st, Returns (acc, called)).
Proof.
  induction ps as [|part rest IH]; intros acc called st Hnone; [done|].
  unfold function_calls in Hnone. cbn in *.
  destruct (function_call part); [done|]. by apply IH.
Qed.

(** ** Facts about logs *)


Lemma tool_parts_complete fcs answers tool_parts :
  Forall3 tool_part_for fcs answers tool_parts -> Forall completes answers.
Proof.
  induction 1 as [|fc a p ??? (r & first & more & -> & Hr & _)];
    constructor; [by exists r, first, more | done].
Qed.

Lemma elem_of_invokes ev fcs answers :
  ev ∈ zip_with invoke fcs answers ->
  ∃ fc answer, ev = invoke fc answer ∧ fc ∈ fcs ∧ answer ∈ answers.
Proof. apply elem_of_zip_with. Qed.

Lemma invokes_no_generate m c cfg fcs answers :
  EvGenerate m c cfg ∉ zip_with invoke fcs answers.
Proof. intros (fc & a & Heq & _)%elem_of_invokes. discriminate. Qed.

Lemma drop_two {A} (a b : A) (l : list A) : drop 2 ([a; b] ++ l) = l.
Proof. done. Qed.

(** The last answer belongs to the last entry. *)
Lemma invokes_snoc fcs before last :
  length (before ++ [last]) ≤ length fcs ->
  ∃ fc, fc ∈ fcs
        ∧ zip_with invoke fcs (before ++ [last])
          = zip_with invoke fcs before ++ [invoke fc last].
Proof.
  rewrite length_app. cbn. intros Hlen.
  rewrite zip_with_app_r.
  destruct (drop (length before) fcs) as [|fc more] eqn:Hdrop.
  - apply (f_equal length) in Hdrop. rewrite length_drop in Hdrop. cbn in Hdrop. lia.
  - exists fc. split.
    + apply (list_elem_of_lookup_2 _ (length before)).
      by rewrite <- (Nat.add_0_r (length before)), <- lookup_drop, Hdrop.
    + cbn. rewrite zip_with_nil_r. f_equal. apply zip_with_take_l'. lia.
Qed.


(** ** A query whose first completion returned *)

Section FirstResponse.

Context (s : Script) (query : string) (st : State W).
Context (tools : list Tool) (decls : list FunctionDeclaration) (w1 w2 : W).
Context (resp : GenerateContentResponse) (cand : Candidate)
        (others : list Candidate).

Hypothesis Hsession : is_Some (session (self st)).
Hypothesis Hlist : list_tools peers (world st) = (w1, Returns tools).
Hypothesis Hdecls : to_declarations peers tools = Returns decls.
Hypothesis Hfirst :
  generate_content peers (model (self st)) (Single query)
    (first_config s (declared decls)) w1 = (w2, Returns resp).
Hypothesis Hcand : candidates resp = cand :: others.

Lemma process_query_unfold :
  process_query peers s query st =
    match dispatch peers (parts (content cand)) [] false
            (after_first_request s query st decls w2) with
    | (st3, Returns (tool_parts, tool_called)) =>
        if negb tool_called then (st3, Returns (response_text resp))
        else
          match models_generate_content peers
                  (followup_contents query (content cand) tool_parts)
                  (followup_config s) st3 with
          | (st4, Returns followup) => (st4, Returns (response_text followup))
          | (st4, Raises e) => (st4, Raises e)
          end
    | (st3, Raises e) => (st3, Raises e)
    end.
Proof.
  unfold process_query.
  unfold bind at 1. rewrite (get_gemini_tools_run st w1 tools) by done.
  rewrite Hdecls. unfold bind at 1.
  rewrite models_generate_content_run. cbn [emit self world log held].
  rewrite Hfirst. cbn [fst snd].
  unfold bind at 1. rewrite Hcand. cbn [index0]. unfold ret at 1.
  unfold bind at 1.
  replace (emit w2 _ _) with (after_first_request s query st decls w2)
    by (unfold after_first_request, emit, first_request; cbn;
        by rewrite <- app_assoc).
  destruct (dispatch _ _ _ _ _) as [st3 [[tool_parts tool_called]|e]]; [|done].
  destruct tool_called; cbn [negb]; [|done].
  unfold bind, ret.
  by destruct (models_generate_content _ _ _ st3) as [st4 [followup|e]].
Qed.

(** The log of the whole run: the catalog fetch, the first request, the
    calls that were dispatched, and what came after them. *)
Lemma process_query_log :
  let fcs := function_calls (parts (content cand)) in
  let run := process_query peers s query st in
  ∃ answers tail,
    log run.1
      = log st ++ [EvListTools; first_request s (self st) query decls]
          ++ zip_with invoke fcs answers ++ tail
    ∧ length answers ≤ length fcs
    ∧ self run.1 = self st
    ∧ held run.1 = held st
    ∧ Ending peers s query st resp (content cand) fcs answers run tail.
Proof.
  intros fcs run. subst run. rewrite process_query_unfold.
  destruct (dispatch_log (parts (content cand)) [] false
              (after_first_request s query st decls w2))
    as (answers & Hlog & Hlen & Hself & Hheld & Hout); [done|].
  fold fcs in Hlog, Hlen, Hout.
  destruct (dispatch _ _ _ _ _) as [st3 [[tool_parts tool_called]|e]];
    cbn [fst snd after_first_request self held log] in *.
  - destruct Hout as (Hk & (new & -> & Hnew) & ->). cbn [orb app].
    case_bool_decide as Hfcs; cbn [negb].
    + rewrite models_generate_content_run.
      destruct (generate_content peers (model (self st3)) _ _ (world st3))
        as [w4 reply] eqn:Hgen.
      exists answers, [followup_request s (self st) query (content cand) new].
      rewrite Hself in Hgen.
      destruct reply as [followup|e]; cbn [fst snd emit log self held].
      all: split_and!;
        [rewrite Hlog, Hself; unfold followup_request; by rewrite <- !app_assoc
        |done|done|done|].
      * eapply FollowedUp with (w := world st3) (reply := Returns followup);
          [done|done|by rewrite Hgen|done].
      * eapply FollowedUp with (w := world st3) (reply := Raises e);
          [done|done|by rewrite Hgen|done].
    + exists [], [].
      rewrite Hfcs in *. destruct answers; [|done].
      cbn [fst snd]. rewrite Hlog. cbn. rewrite app_nil_r.
      split_and!; [done|done|done|done|]. by apply Answered.
  - destruct Hout as (before & last & -> & Hbefore & Hlast).
    exists (before ++ [last]), []. rewrite app_nil_r.
    split_and!; [by rewrite Hlog, <- app_assoc|done|done|done|].
    by eapply Aborted.
Qed.


(** C2.  With at least one function-call part in the first response, any
    completion request issued after the first one is the follow-up: its
    contents are the three entries (query, the first response's content
    turn, a turn of role "tool"), the tool turn holds one function-response
    part per dispatched call, in dispatch order, and no tools are
    advertised. *)
Theorem followup_request_shape :
  let fcs := function_calls (parts (content cand)) in
  let run := process_query peers s query st in
  1 ≤ length fcs ->
  forall m contents config,
    EvGenerate m contents config ∈ drop 2 (added st run.1) ->
    ∃ answers tool_parts,
      contents = Several [OfStr query; OfContent (content cand);
                          OfContent (mkContent (Some "tool") tool_parts)]
      ∧ config_tools config = None
      ∧ length tool_parts = length fcs
      ∧ Forall3 tool_part_for fcs answers tool_parts
      ∧ added st run.1
          = [EvListTools; first_request s (self st) query decls]
              ++ zip_with invoke fcs answers
              ++ [EvGenerate m contents config].
Proof.
  intros fcs run Hk m contents config.
  destruct process_query_log as (answers & tail & Hlog & Hlen & _ & _ & Hend).
  fold fcs run in Hlog, Hend. unfold added. rewrite Hlog, drop_app_length.
  rewrite drop_two, elem_of_app. intros [Hin|Hin].
  { by apply invokes_no_generate in Hin. }
  destruct Hend as [| |tool_parts w reply _ Hparts _ _];
    [by apply elem_of_nil in Hin..|].
  apply list_elem_of_singleton in Hin. injection Hin as -> -> ->.
  exists answers, tool_parts. split_and!; try done.
  symmetry. by eapply Forall3_length_lr.
Qed.

(** C3.  When the first response carries no function-call part, the query
    ends right after the first request: the provider is not invoked, no
    second completion request is issued, and the answer is the first
    response's text. *)
Theorem process_query_without_calls :
  let run := process_query peers s query st in
  function_calls (parts (content cand)) = [] ->
  run.2 = Returns (response_text resp)
  ∧ added st run.1 = [EvListTools; first_request s (self st) query decls]
  ∧ filter is_call_tool (added st run.1) = []
  ∧ filter is_generate (added st run.1)
      = [first_request s (self st) query decls].
Proof.
  intros run Hnone. subst run.
  rewrite process_query_unfold, dispatch_no_calls by done.
  cbn [negb fst snd]. unfold added, after_first_request. cbn [log].
  by rewrite drop_app_length.
Qed.

(** A call whose answer stops the loop is the last thing the query does,
    and the query raises what that answer dictates. *)
Lemma failing_call_is_last name arguments answer :
  let run := process_query peers s query st in
  ¬ completes answer ->
  EvCallTool name arguments answer ∈ added st run.1 ->
  (∃ e, aborts answer e ∧ run.2 = Raises e)
  ∧ (∃ earlier, added st run.1 = earlier ++ [EvCallTool name arguments answer])
  ∧ forall m contents config,
      EvGenerate m contents config ∉ drop 2 (added st run.1).
Proof.
  intros run Hfails.
  destruct process_query_log as (answers & tail & Hlog & Hlen & _ & _ & Hend).
  fold run in Hlog, Hend. unfold added. rewrite Hlog, drop_app_length.
  rewrite drop_two.
  assert (Hcompleted : forall before,
            Forall completes before ->
            EvCallTool name arguments answer
              ∉ zip_with invoke (function_calls (parts (content cand))) before).
  { intros before Hbefore (fc & answer' & Heq & _ & Hans)%elem_of_invokes.
    injection Heq as -> -> <-. rewrite Forall_forall in Hbefore. auto. }
  destruct Hend as [e before last Hrun Hsplit Hbefore Hlast
                   |Hnone Hnil _|tool_parts w reply _ Hparts _ _].
  - rewrite Hsplit in Hlen |- *.
    destruct (invokes_snoc _ _ _ Hlen) as (fc & _ & ->).
    rewrite app_nil_r. cbn [app].
    rewrite !elem_of_cons, elem_of_app, list_elem_of_singleton.
    intros [Heq|[Heq|[Hin|Heq]]]; [done|done|by apply Hcompleted in Hin|].
    injection Heq as -> -> ->.
    split_and!; [by exists e| |].
    + by exists ([EvListTools; first_request s (self st) query decls]
                 ++ zip_with invoke (function_calls (parts (content cand))) before).
    + intros m contents config [Hg|Hg]%elem_of_app.
      * by apply invokes_no_generate in Hg.
      * by apply list_elem_of_singleton in Hg.
  - rewrite Hnil, zip_with_nil_r. cbn [app].
    rewrite !elem_of_cons. intros [Heq|[Heq|Hin]]; [done|done|].
    by apply elem_of_nil in Hin.
  - cbn [app]. rewrite !elem_of_cons, elem_of_app, list_elem_of_singleton.
    intros [Heq|[Heq|[Hin|Heq]]]; [done|done| |done].
    by apply Hcompleted in Hin; [|eapply tool_parts_complete].
Qed.

(** C5, as the code has it.  When the provider raises [e] for a dispatched
    call, the query raises that very exception, untouched: the call is the
    last entry of the log, so no later part is dispatched and no follow-up
    request is issued. *)
Theorem tool_failure_propagates :
  let run := process_query peers s query st in
  forall name arguments e,
    EvCallTool name arguments (Raises e) ∈ added st run.1 ->
    run.2 = Raises e
    ∧ (∃ earlier,
         added st run.1 = earlier ++ [EvCallTool name arguments (Raises e)])
    ∧ forall m contents config,
        EvGenerate m contents config ∉ drop 2 (added st run.1).
Proof.
  intros run name arguments e Hin.
  destruct (failing_call_is_last name arguments (Raises e))
    as ((e' & Hab & Hrun) & Hlast & Hnone); [|done|].
  { by intros (? & ? & ? & ? & _). }
  split_and!; [|done|done].
  destruct Hab as [[= ->]|(? & ? & _)]; done.
Qed.


(** C9.  Only [result.content[0].text] reaches the model.  A dispatched
    call answered with an empty content list ends the query with
    [IndexError], with nothing after that call; and in a follow-up request
    the part built for a call holds the text of the first content item of
    its answer and nothing of the items after it. *)
Theorem only_first_content_item_is_used :
  let fcs := function_calls (parts (content cand)) in
  let run := process_query peers s query st in
  (forall name arguments r,
     EvCallTool name arguments (Returns r) ∈ added st run.1 ->
     result_content r = [] ->
     run.2 = Raises IndexError
     ∧ ∃ earlier,
         added st run.1 = earlier ++ [EvCallTool name arguments (Returns r)])
  ∧ (forall tool_parts,
       followup_request s (self st) query (content cand) tool_parts
         ∈ added st run.1 ->
       ∃ answers,
         added st run.1
           = [EvListTools; first_request s (self st) query decls]
               ++ zip_with invoke fcs answers
               ++ [followup_request s (self st) query (content cand)
                     tool_parts]
         ∧ Forall3
             (fun fc answer p =>
                ∃ r first more,
                  answer = Returns r
                  ∧ result_content r = first :: more
                  ∧ p = from_function_response (fc_name fc)
                          {[ "result" := VStr (text first) ]})
             fcs answers tool_parts).
Proof.
  intros fcs run. split.
  - intros name arguments r Hin Hempty.
    destruct (failing_call_is_last name arguments (Returns r))
      as ((e & Hab & Hrun) & Hlast & _); [|done|].
    { intros (? & ? & ? & [= <-] & Hcontent). congruence. }
    split; [|done].
    by destruct Hab as [?|(? & _ & _ & ->)].
  - intros tool_parts.
    destruct process_query_log as (answers & tail & Hlog & Hlen & _ & _ & Hend).
    fold fcs run in Hlog, Hend. unfold added. rewrite Hlog, drop_app_length.
    cbn [app]. rewrite !elem_of_cons, elem_of_app.
    intros [Heq|[Heq|[Hin|Hin]]]; [done|done|by apply invokes_no_generate in Hin|].
    destruct Hend as [| |tool_parts' w reply _ Hparts _ _];
      [by apply elem_of_nil in Hin..|].
    apply list_elem_of_singleton in Hin. injection Hin as ->.
    by exists answers.
Qed.

End FirstResponse.

(** ** Session lifecycle *)




(** A successful [connect] holds exactly what it pushed on the stack. *)
Lemma connect_holds s path st :
  (connect peers s path st).2 = Returns tt ->
  let st' := (connect peers s path st).1 in
  let p := server_params s path (self st) in
  is_Some (session (self st'))
  ∧ exit_stack (self st')
      = SessionContext :: StdioTransport p :: exit_stack (self st)
  ∧ held st' = SessionContext :: StdioTransport p :: held st
  ∧ ∃ evs, log st' = log st ++ EvEnter (StdioTransport p)
                        :: EvEnter SessionContext :: evs
           ∧ Forall (fun ev => is_exit ev = false) evs.
Proof.
  unfold connect, bind, enter_async_context, assign_session,
    session_initialize, session_list_tools, ret.
  cbn [world log held self set_self set_session set_exit_stack session
       exit_stack emit].
  destruct (spawn peers _ (world st)) as [w0 [[]|e]]; [|done].
  cbn [world log held self set_self set_session set_exit_stack session
       exit_stack emit].
  destruct (initialize peers w0) as [w1 [[]|e]]; [|done].
  cbn [world log held self set_self set_session set_exit_stack session
       exit_stack emit].
  destruct (list_tools peers w1) as [w2 [tools|e]]; [|done].
  intros _. cbn. split_and!; [by eexists|done|done|].
  exists [EvInitialize; EvListTools]. split.
  - by rewrite <- !app_assoc.
  - by repeat constructor.
Qed.

Lemma framed_emit st st' w ev :
  framed st st' -> is_exit ev = false -> framed st (emit w ev st').
Proof.
  intros (Hs & Hh & Hl) Hev. split_and!; [done|done|].
  cbn. rewrite filter_app, Hl. cbn.
  destruct ev; try done; by rewrite app_nil_r.
Qed.

Lemma framed_trans st1 st2 st3 : framed st1 st2 -> framed st2 st3 -> framed st1 st3.
Proof. intros (? & ? & ?) (? & ? & ?). split_and!; congruence. Qed.

Lemma safe_step {A} st st' (run : State W * Outcome A) :
  framed st st' -> safe peers st' run -> safe peers st run.
Proof. intros Hf [Hf' He]. split; [by eapply framed_trans|done]. Qed.

Lemma dispatch_frame ps : forall acc called st,
  safe peers st (dispatch peers ps acc called st).
Proof.
  induction ps as [|part rest IH]; intros acc called st; [done|].
  cbn [dispatch]. destruct (function_call part) as [fc|]; [|apply IH].
  unfold bind, session_call_tool.
  destruct (session (self st)); cycle 1.
  { split; [done|]. by intros e _ [= <-]. }
  destruct (call_tool peers (fc_name fc) (dict (fc_args fc)) (world st))
    as [w [r|e]] eqn:Hcall.
  - destruct (result_content r) as [|first more]; cbn [index0 raise ret].
    + split; [by apply framed_emit|]. by intros e _ [= <-].
    + match goal with |- context [dispatch peers rest ?a ?c ?s] =>
        apply (safe_step st s); [by apply framed_emit|apply IH] end.
  - split; [by apply framed_emit|].
    intros e' (_ & Hcalls & _) [= <-].
    apply (Hcalls (fc_name fc) (dict (fc_args fc)) (world st)).
    by rewrite Hcall.
Qed.

Lemma process_query_frame s query st :
  safe peers st (process_query peers s query st).
Proof.
  unfold process_query, get_gemini_tools, bind, session_list_tools.
  destruct (session (self st)); cycle 1.
  { split; [done|]. by intros e _ [= <-]. }
  destruct (list_tools peers (world st)) as [w1 [tools|e]] eqn:Hlist; cycle 1.
  { split; [by apply framed_emit|]. intros e' (Hl & _) [= <-].
    apply (Hl (world st)). by rewrite Hlist. }
  unfold lift at 1.
  destruct (to_declarations peers tools) as [decls|e] eqn:Hdecls; cycle 1.
  { split; [by apply framed_emit|]. intros e' _ [= <-].
    by eapply to_declarations_raises_Exception. }
  unfold ret at 1. unfold models_generate_content at 1.
  cbn [emit world self].
  match goal with |- context [generate_content peers ?m ?c ?cfg ?w] =>
    destruct (generate_content peers m c cfg w) as [w2 [resp|e]] eqn:Hgen end;
    cycle 1.
  { split; [by repeat apply framed_emit|]. intros e' (_ & _ & Hg) [= <-].
    eapply Hg. by rewrite Hgen. }
  destruct (candidates resp) as [|cand others]; cbn [index0 raise ret].
  { split; [by repeat apply framed_emit|]. by intros e _ [= <-]. }
  match goal with |- context [dispatch peers ?ps ?a ?c ?s] =>
    apply (safe_step st s); [by repeat apply framed_emit|];
    destruct (dispatch_frame ps a c s) as [Hframe Hexn];
    destruct (dispatch peers ps a c s) as [st3 [[tool_parts tool_called]|e]]
  end; cbn [fst snd] in *;
    [|split; [done|intros e0 Hp [= <-]; by apply Hexn]].
  apply (safe_step _ st3); [done|].
  destruct tool_called; cbn [negb]; [|by split].
  unfold models_generate_content.
  match goal with |- context [generate_content peers ?m ?c ?cfg ?w] =>
    destruct (generate_content peers m c cfg w) as [w4 [followup|e]] eqn:Hgen2 end.
  - split; [by apply framed_emit|done].
  - split; [by apply framed_emit|]. intros e' (_ & _ & Hg) [= <-].
    eapply Hg. by rewrite Hgen2.
Qed.


(** A freshly built client has no session and an empty exit stack. *)
Lemma init_fresh s environ client :
  init s environ = Returns client ->
  session client = None ∧ exit_stack client = [].
Proof.
  unfold init. destruct (not_str _); [done|].
  destruct s; [by intros [= <-]|].
  destruct (_ || _); [done|]. by intros [= <-].
Qed.


End Loop.

(** ** The scripts on scripted peers *)

Import Scripted.

(** C7, where the code falls short.  [main] of [client-gemini.py] with the
    backend down: [connect] has succeeded, the first completion raises, and
    the script ends without having called [cleanup]; the transport and the
    session are still open and no context was left. *)
Theorem main_leaks_when_query_raises :
  main_backend_down.2 = Raises api_error
  ∧ final_held main_backend_down.1
      = [SessionContext;
         StdioTransport (mkParams "python" ["server.py"] None)]
  ∧ filter is_exit (final_log main_backend_down.1) = [].
Proof. by vm_compute. Qed.

(** ** The temperature converter *)

Section Converter.

Import WeatherServer.

Context {F : Type} (py : Builtins F).

Lemma truediv_benign (x y : F) : benign (truediv py x y).
Proof. unfold truediv. destruct (is_zero py y); [by right|left; by eexists]. Qed.

Lemma and_then_benign {A B} (o : Outcome A) (k : A -> Outcome B) :
  benign o -> (forall a, benign (k a)) -> benign (and_then o k).
Proof. intros [[a ->]| ->] Hk; [apply Hk|by right]. Qed.

Lemma returns_benign {A} (a : A) : benign (Returns a).
Proof. left. by eexists. Qed.

Lemma try_except_benign (o : Outcome string) :
  benign o ->
  ∃ answer,
    try_except o (fun e => Returns ("❌ Error: " ++ exn_msg e)%string)
    = Returns answer.
Proof. intros [[a ->]| ->]; by eexists. Qed.

(** Past the guards, the conversion itself always yields a string: the
    only exception the arithmetic can raise is caught. *)
Lemma conversion_returns (temp_value : F) (from_unit to_unit : string) :
  ∃ answer,
    try_except
      (and_then
         (if bool_decide (from_unit = "celsius") then Returns temp_value
          else if bool_decide (from_unit = "fahrenheit")
               then fahrenheit_to_celsius py temp_value
               else kelvin_to_celsius py temp_value)
         (fun celsius =>
            and_then
              (if bool_decide (to_unit = "celsius") then Returns celsius
               else if bool_decide (to_unit = "fahrenheit")
                    then celsius_to_fahrenheit py celsius
                    else Returns (fadd py celsius (float_273_15 py)))
              (fun result =>
                 Returns
                   ("🌡️ **Temperature Conversion**" ++ newline
                    ++ float_str py temp_value ++ symbol from_unit
                    ++ " = " ++ float_2f py result
                    ++ symbol to_unit)%string)))
      (fun e => Returns ("❌ Error: " ++ exn_msg e)%string)
    = Returns answer.
Proof.
  apply try_except_benign, and_then_benign.
  - case_bool_decide; [apply returns_benign|].
    case_bool_decide; [apply truediv_benign|apply returns_benign].
  - intros celsius. apply and_then_benign; [|intros; apply returns_benign].
    case_bool_decide; [apply returns_benign|].
    case_bool_decide; [|apply returns_benign].
    apply and_then_benign; [apply truediv_benign|intros; apply returns_benign].
Qed.

(** C10.  [convert_temperature] returns a string for every three strings
    it is given, and never raises; when the temperature is blank, a unit is
    blank, a lower-cased unit is not one of the six accepted names, or the
    temperature is not a number for [float], that string starts with the
    error marker. *)
Theorem convert_temperature_total (temperature from_unit to_unit : string) :
  ∃ answer,
    convert_temperature py temperature from_unit to_unit = Returns answer
    ∧ (blank py temperature = true
       ∨ blank py from_unit = true
       ∨ blank py to_unit = true
       ∨ lower py from_unit ∉ valid_units
       ∨ lower py to_unit ∉ valid_units
       ∨ float_of_str py temperature = None ->
       String.prefix "❌ Error" answer = true).
Proof.
  unfold convert_temperature.
  destruct (blank py temperature) eqn:Ht; [by eexists|].
  destruct (blank py from_unit) eqn:Hf; [by eexists|].
  destruct (blank py to_unit) eqn:Hu; [by eexists|].
  cbn [orb]. unfold is_valid_unit.
  case_bool_decide as Hfrom; cbn [negb orb]; [|by eexists].
  case_bool_decide as Hto; cbn [negb orb]; [|by eexists].
  destruct (float_of_str py temperature) as [temp_value|] eqn:Hparse;
    [|by eexists].
  assert (Hfine : ¬ (false = true ∨ false = true ∨ false = true
                     ∨ lower py from_unit ∉ valid_units
                     ∨ lower py to_unit ∉ valid_units
                     ∨ Some temp_value = None))
    by (intros [?|[?|[?|[?|[?|?]]]]]; done).
  case_bool_decide.
  - eexists. split; [done|]. by intros ?%Hfine.
  - match goal with |- context [try_except ?m ?h] =>
      destruct (conversion_returns temp_value
                  (normalize "k" "kelvin"
                     (normalize "f" "fahrenheit"
                        (normalize "c" "celsius" (lower py from_unit))))
                  (normalize "k" "kelvin"
                     (normalize "f" "fahrenheit"
                        (normalize "c" "celsius" (lower py to_unit)))))
        as [answer Hanswer] end.
    exists answer. split; [exact Hanswer|]. by intros ?%Hfine.
Qed.

End Converter.

(** The converter on the decimal stand-in. *)
Example boiling_point :
  WeatherServer.convert_temperature Decimal.builtins "100" "C" "f"
  = Returns ("🌡️ **Temperature Conversion**" ++ WeatherServer.newline
             ++ "100.0°C = 212.00°F")%string.
Proof. reflexivity. Qed.

Example body_temperature :
  WeatherServer.convert_temperature Decimal.builtins " 98.6 " "Fahrenheit" "k"
  = Returns ("🌡️ **Temperature Conversion**" ++ WeatherServer.newline
             ++ "98.6°F = 310.15K")%string.
Proof. reflexivity. Qed.

Example same_unit :
  WeatherServer.convert_temperature Decimal.builtins "0" "k" "Kelvin"
  = Returns "✅ 0.0° Kelvin = 0.0° Kelvin".
Proof. reflexivity. Qed.

Example unit_with_spaces :
  WeatherServer.convert_temperature Decimal.builtins "1" " c" "f"
  = Returns
      "❌ Error: Units must be 'celsius'/'c', 'fahrenheit'/'f', or 'kelvin'/'k'".
Proof. reflexivity. Qed.

(** ** Construction *)

(** C8, as the code has it.  Without a Gemini key (unset or empty) the
    constructor raises [ValueError] before a client exists: the script ends
    there, having contacted no peer, so no completion is ever attempted or
    retried. *)
Theorem missing_api_key_fails_construction {W} (peers : Peers W)
    (s : Script) (environ : gmap string string) (w : W) :
  not_str (getenv environ "GEMINI_API_KEY") = true ->
  init s environ = Raises (ValueError "GEMINI_API_KEY is not set")
  ∧ main peers s environ w
    = (mkFinal w [] [], Raises (ValueError "GEMINI_API_KEY is not set")).
Proof.
  intros Hkey. assert (Hinit : init s environ
                        = Raises (ValueError "GEMINI_API_KEY is not set")).
  { unfold init. by rewrite Hkey. }
  split; [done|]. unfold main. by rewrite Hinit.
Qed.

(** ** The claims on concrete runs *)


(** C4 does not hold as stated: the provider lists two tools, the input
    schema of the second has a "$schema" key, the library refuses it, and
    the adapter raises the [ValidationError]: no declaration is produced
    for either tool. *)
Lemma refused_schema_ends_the_adapter :
  (list_tools (peers draft07) 0).2 = Returns draft07_tools
  ∧ length draft07_tools = 2
  ∧ model_validate (peers draft07) draft07_schema
    = inr "Extra inputs are not permitted"
  ∧ (get_gemini_tools (peers draft07) (start ClientGemini)).2
    = Raises (ValidationError "Extra inputs are not permitted")
  ∧ (process_query (peers draft07) ClientGemini "hello" (start ClientGemini)).2
    = Raises (ValidationError "Extra inputs are not permitted")
  ∧ log (process_query (peers draft07) ClientGemini "hello"
           (start ClientGemini)).1
    = [EvListTools].
Proof. by vm_compute. Qed.

(** C8 does not hold as stated: with no key in the environment the script
    stops with a [ValueError] raised by the constructor, not with an
    [AuthenticationError] of a completion call; nothing was logged. *)
Lemma missing_api_key_is_a_ValueError :
  getenv (∅ : gmap string string) "GEMINI_API_KEY" = None
  ∧ main_without_key.2 = Raises (ValueError "GEMINI_API_KEY is not set")
  ∧ exn_class (ValueError "GEMINI_API_KEY is not set") ≠ "AuthenticationError"
  ∧ final_log main_without_key.1 = [].
Proof. by vm_compute. Qed.

(** C5 does not hold as stated: the provider raises [McpError] on the call
    to "add", and [process_query] raises that [McpError], which is no
    [ToolInvocationError] and carries no tool name.  (One call of the two
    requested was made.) *)
Lemma tool_failure_is_not_wrapped :
  provider provider_raises "add" {[ "a" := VNum 2; "b" := VNum 3 ]}
    = Raises connection_closed
  ∧ run_provider_raises.2 = Raises connection_closed
  ∧ exn_class connection_closed ≠ "ToolInvocationError"
  ∧ exn_msg connection_closed = "Connection closed"
  ∧ length (filter is_call_tool (log run_provider_raises.1)) = 1
  ∧ length (filter is_generate (log run_provider_raises.1)) = 1.
Proof. by vm_compute. Qed.


(** *** Instances of the theorems *)

Lemma get_gemini_tools_preserves_catalog_witness :
  ∃ decls,
    get_gemini_tools (peers two_calls) (start ClientGemini)
      = (emit 0 EvListTools (start ClientGemini), Returns [mkGeminiTool decls])
    ∧ length decls = 2
    ∧ forall i tool,
        calculator_tools !! i = Some tool ->
        ∃ d, decls !! i = Some d
             ∧ fd_name d = tool_name tool
             ∧ fd_description d = tool_description tool
             ∧ model_validate (peers two_calls) (tool_inputSchema tool)
               = inl (fd_parameters d).
Proof.
  apply (get_gemini_tools_preserves_catalog (peers two_calls)
           (start ClientGemini) 0 calculator_tools).
  - by eexists.
  - reflexivity.
  - repeat constructor; by eexists.
Defined.


Lemma followup_request_shape_witness :
  ∃ answers tool_parts,
    followup_contents "2+3 and 9-4" (turn_of two_calls_parts)
      two_calls_tool_parts
      = Several [OfStr "2+3 and 9-4"; OfContent (turn_of two_calls_parts);
                 OfContent (mkContent (Some "tool") tool_parts)]
    ∧ config_tools (followup_config ClientGemini) = None
    ∧ length tool_parts = 2
    ∧ Forall3 tool_part_for (function_calls two_calls_parts) answers tool_parts
    ∧ added (start ClientGemini) run_two_calls.1
        = [EvListTools;
           first_request ClientGemini (connected ClientGemini)
             "2+3 and 9-4" calculator_decls]
            ++ zip_with invoke (function_calls two_calls_parts) answers
            ++ [EvGenerate "gemini-2.5-flash"
                  (followup_contents "2+3 and 9-4" (turn_of two_calls_parts)
                     two_calls_tool_parts)
                  (followup_config ClientGemini)].
Proof.
  apply (followup_request_shape (peers two_calls) ClientGemini
           "2+3 and 9-4" (start ClientGemini) calculator_tools
           calculator_decls 0 1
           (response_of two_calls_parts None)
           (mkCandidate (turn_of two_calls_parts)) []).
  - by eexists.
  - reflexivity.
  - reflexivity.
  - reflexivity.
  - reflexivity.
  - cbn. lia.
  - vm_compute. do 2 apply list_elem_of_further. apply list_elem_of_here.
Defined.

Lemma process_query_without_calls_witness :
  run_text_only.2 = Returns (Some "Hi there")
  ∧ added (start ClientGemini) run_text_only.1
      = [EvListTools;
         first_request ClientGemini (connected ClientGemini) "hello"
           calculator_decls]
  ∧ filter is_call_tool (added (start ClientGemini) run_text_only.1) = []
  ∧ filter is_generate (added (start ClientGemini) run_text_only.1)
      = [first_request ClientGemini (connected ClientGemini) "hello"
           calculator_decls].
Proof.
  apply (process_query_without_calls (peers text_only) ClientGemini
           "hello" (start ClientGemini) calculator_tools
           calculator_decls 0 1
           (response_of [says_text "Hi there"] (Some "Hi there"))
           (mkCandidate (turn_of [says_text "Hi there"])) []).
  - by eexists.
  - reflexivity.
  - reflexivity.
  - reflexivity.
  - reflexivity.
  - reflexivity.
Defined.

Lemma tool_failure_propagates_witness :
  run_provider_raises.2 = Raises connection_closed
  ∧ (∃ earlier,
       added (start ClientGemini) run_provider_raises.1
         = earlier ++ [EvCallTool "add" {[ "a" := VNum 2; "b" := VNum 3 ]}
                         (Raises connection_closed)])
  ∧ forall m contents config,
      EvGenerate m contents config
        ∉ drop 2 (added (start ClientGemini) run_provider_raises.1).
Proof.
  apply (tool_failure_propagates (peers provider_raises) ClientGemini
           "2+3 and 9-4" (start ClientGemini) calculator_tools
           calculator_decls 0 1
           (response_of failing_parts None)
           (mkCandidate (turn_of failing_parts)) []).
  - by eexists.
  - reflexivity.
  - reflexivity.
  - reflexivity.
  - reflexivity.
  - vm_compute. do 2 apply list_elem_of_further. apply list_elem_of_here.
Defined.


Lemma only_first_content_item_is_used_witness :
  (run_empty_content.2 = Raises IndexError
   ∧ ∃ earlier,
       added (start ClientGemini) run_empty_content.1
         = earlier ++ [EvCallTool "add" {[ "a" := VNum 2; "b" := VNum 3 ]}
                         (Returns (mkCallToolResult [] false))])
  ∧ ∃ answers,
      added (start ClientGemini) run_two_items.1
        = [EvListTools;
           first_request ClientGemini (connected ClientGemini) "2+3"
             calculator_decls]
            ++ zip_with invoke (function_calls [call "add" 2 3]) answers
            ++ [followup_request ClientGemini (connected ClientGemini) "2+3"
                  (turn_of [call "add" 2 3])
                  [from_function_response "add" {[ "result" := VStr "5" ]}]]
      ∧ Forall3
          (fun fc answer p =>
             ∃ r first more,
               answer = Returns r
               ∧ result_content r = first :: more
               ∧ p = from_function_response (fc_name fc)
                       {[ "result" := VStr (text first) ]})
          (function_calls [call "add" 2 3]) answers
          [from_function_response "add" {[ "result" := VStr "5" ]}].
Proof.
  split.
  - apply (proj1 (only_first_content_item_is_used (peers empty_content)
             ClientGemini "2+3" (start ClientGemini) calculator_tools
           calculator_decls 0 1
             (response_of [call "add" 2 3] None)
             (mkCandidate (turn_of [call "add" 2 3])) []
             ltac:(by eexists) eq_refl eq_refl eq_refl eq_refl)).
    + vm_compute. do 2 apply list_elem_of_further. apply list_elem_of_here.
    + reflexivity.
  - apply (proj2 (only_first_content_item_is_used (peers two_items)
             ClientGemini "2+3" (start ClientGemini) calculator_tools
           calculator_decls 0 1
             (response_of [call "add" 2 3] None)
             (mkCandidate (turn_of [call "add" 2 3])) []
             ltac:(by eexists) eq_refl eq_refl eq_refl eq_refl)).
    vm_compute. do 3 apply list_elem_of_further. apply list_elem_of_here.
Defined.

Lemma missing_api_key_fails_construction_witness :
  init ClientGeminiGithub (∅ : gmap string string)
    = Raises (ValueError "GEMINI_API_KEY is not set")
  ∧ main (peers two_calls) ClientGeminiGithub ∅ 0
    = (mkFinal 0 [] [], Raises (ValueError "GEMINI_API_KEY is not set")).
Proof.
  apply (missing_api_key_fails_construction (peers two_calls)
           ClientGeminiGithub ∅ 0).
  reflexivity.
Defined.

Lemma convert_temperature_total_witness :
  ∃ answer,
    WeatherServer.convert_temperature Decimal.builtins "abc" "C" "f"
      = Returns answer
    ∧ String.prefix "❌ Error" answer = true.
Proof.
  destruct (convert_temperature_total Decimal.builtins "abc" "C" "f")
    as (answer & Heq & Hprefix).
  exists answer. split; [exact Heq|].
  apply Hprefix. do 5 right. reflexivity.
Defined.

(** * Further properties of the clients *)

Section Client.

Context {W : Type} (peers : Peers W).

Implicit Types (st : State W) (s : Script).

(** ** What a query leaves alone *)

(** X1.  A query neither opens nor closes anything and does not modify the
    client object: [self] and the open handles are the same after it, and
    it leaves no context, whatever the peers answer and however it ends. *)
Theorem process_query_leaves_session_alone s query st :
  self (process_query peers s query st).1 = self st
  ∧ held (process_query peers s query st).1 = held st
  ∧ filter is_exit (log (process_query peers s query st).1)
    = filter is_exit (log st).
Proof. apply process_query_frame. Qed.

Lemma process_query_unconnected s query st :
  session (self st) = None ->
  process_query peers s query st = (st, Raises (no_session "list_tools")).
Proof.
  intros Hnone.
  unfold process_query, get_gemini_tools, bind, session_list_tools.
  by rewrite Hnone.
Qed.

(** ** Failures before the dispatch loop *)

Lemma list_tools_raises s query st w e :
  is_Some (session (self st)) ->
  list_tools peers (world st) = (w, Raises e) ->
  process_query peers s query st = (emit w EvListTools st, Raises e).
Proof.
  intros Hs Hlist. unfold process_query, get_gemini_tools, bind.
  rewrite session_list_tools_run by done. by rewrite Hlist.
Qed.

(** The library refuses a schema: the query ends after the catalog fetch. *)
Lemma declarations_refused s query st tools w e :
  is_Some (session (self st)) ->
  list_tools peers (world st) = (w, Returns tools) ->
  to_declarations peers tools = Raises e ->
  process_query peers s query st = (emit w EvListTools st, Raises e).
Proof.
  intros Hs Hlist Hdecls. unfold process_query. unfold bind at 1.
  rewrite (get_gemini_tools_run peers st w tools) by done.
  by rewrite Hdecls.
Qed.

Lemma first_completion_raises s query st tools decls w1 w2 e :
  is_Some (session (self st)) ->
  list_tools peers (world st) = (w1, Returns tools) ->
  to_declarations peers tools = Returns decls ->
  generate_content peers (model (self st)) (Single query)
    (first_config s (declared decls)) w1 = (w2, Raises e) ->
  process_query peers s query st
  = (after_first_request s query st decls w2, Raises e).
Proof.
  intros Hs Hlist Hdecls Hgen. unfold process_query.
  unfold bind at 1. rewrite (get_gemini_tools_run peers st w1 tools) by done.
  rewrite Hdecls. unfold bind at 1.
  rewrite models_generate_content_run. cbn [emit self world log held].
  rewrite Hgen. cbn [fst snd].
  unfold after_first_request, emit, first_request; cbn.
  by rewrite <- app_assoc.
Qed.

Lemma no_candidates_raises s query st tools decls w1 w2 resp :
  is_Some (session (self st)) ->
  list_tools peers (world st) = (w1, Returns tools) ->
  to_declarations peers tools = Returns decls ->
  generate_content peers (model (self st)) (Single query)
    (first_config s (declared decls)) w1 = (w2, Returns resp) ->
  candidates resp = [] ->
  process_query peers s query st
  = (after_first_request s query st decls w2, Raises IndexError).
Proof.
  intros Hs Hlist Hdecls Hgen Hnone. unfold process_query.
  unfold bind at 1. rewrite (get_gemini_tools_run peers st w1 tools) by done.
  rewrite Hdecls. unfold bind at 1.
  rewrite models_generate_content_run. cbn [emit self world log held].
  rewrite Hgen. cbn [fst snd].
  unfold bind at 1. rewrite Hnone. cbn [index0 raise].
  unfold after_first_request, emit, first_request; cbn.
  by rewrite <- app_assoc.
Qed.

(** ** One catalog fetch per query *)

Lemma invokes_no_list_tools (fcs : list FunctionCall)
    (answers : list (Outcome CallToolResult)) :
  filter is_list_tools (zip_with invoke fcs answers) = [].
Proof.
  revert answers. induction fcs as [|fc fcs IH]; intros [|a answers]; try done.
  cbn [zip_with]. rewrite filter_cons. cbn. apply IH.
Qed.

Lemma process_query_fetches_once s query st :
  is_Some (session (self st)) ->
  ∃ rest,
    log (process_query peers s query st).1 = log st ++ EvListTools :: rest
    ∧ filter is_list_tools rest = [].
Proof.
  intros Hs.
  destruct (list_tools peers (world st)) as [w1 [tools|e]] eqn:Hlist; cycle 1.
  { rewrite (list_tools_raises s query st w1 e) by done.
    by exists []. }
  destruct (to_declarations peers tools) as [decls|e] eqn:Hdecls; cycle 1.
  { rewrite (declarations_refused s query st tools w1 e) by done.
    by exists []. }
  destruct (generate_content peers (model (self st)) (Single query)
              (first_config s (declared decls)) w1) as [w2 [resp|e]] eqn:Hgen;
    cycle 1.
  { rewrite (first_completion_raises s query st tools decls w1 w2 e)
      by done.
    by exists [first_request s (self st) query decls]. }
  destruct (candidates resp) as [|cand others] eqn:Hcand.
  { rewrite (no_candidates_raises s query st tools decls w1 w2 resp)
      by done.
    by exists [first_request s (self st) query decls]. }
  destruct (process_query_log peers s query st tools decls w1 w2 resp cand
              others)
    as (answers & tail & Hlog & _ & _ & _ & Hend); [done..|].
  eexists. split; [exact Hlog|].
  rewrite filter_cons. cbn [is_list_tools first_request].
  rewrite filter_app, invokes_no_list_tools.
  by destruct Hend.
Qed.

(** The log of a query extends the log it started from. *)
Lemma process_query_extends_log s query st :
  ∃ evs, log (process_query peers s query st).1 = log st ++ evs.
Proof.
  destruct (session (self st)) as [v|] eqn:Hs.
  - destruct (process_query_fetches_once s query st) as (rest & -> & _);
      [by rewrite Hs|]. by eexists.
  - rewrite process_query_unconnected by done. exists []. by rewrite app_nil_r.
Qed.


(** X2.  Called before [connect], a query raises [AttributeError] on
    [self.session.list_tools] and contacts no peer. *)
Theorem process_query_before_connect s query st :
  session (self st) = None ->
  process_query peers s query st = (st, Raises (no_session "list_tools")).
Proof. apply process_query_unconnected. Qed.

(** X3.  When listing the tools raises, the query raises the same exception
    and has sent nothing to the model. *)
Theorem catalog_failure_propagates s query st w e :
  is_Some (session (self st)) ->
  list_tools peers (world st) = (w, Raises e) ->
  process_query peers s query st = (emit w EvListTools st, Raises e).
Proof. apply list_tools_raises. Qed.

(** X4.  When the first completion raises, the query raises the same
    exception: no tool is invoked and no second request is made. *)
Theorem first_completion_failure_propagates s query st tools decls w1 w2 e :
  is_Some (session (self st)) ->
  list_tools peers (world st) = (w1, Returns tools) ->
  to_declarations peers tools = Returns decls ->
  generate_content peers (model (self st)) (Single query)
    (first_config s (declared decls)) w1 = (w2, Raises e) ->
  process_query peers s query st
  = (after_first_request s query st decls w2, Raises e).
Proof. apply first_completion_raises. Qed.

(** X5.  A first response whose list of candidates is empty
    ([response.candidates == []]) ends the query with [IndexError] on
    [response.candidates[0]], right after the first request.  (A response
    whose [candidates] is [None] is not a value of the record: there the
    subscript raises [TypeError].) *)
Theorem empty_candidate_list_is_an_IndexError
    s query st tools decls w1 w2 resp :
  is_Some (session (self st)) ->
  list_tools peers (world st) = (w1, Returns tools) ->
  to_declarations peers tools = Returns decls ->
  generate_content peers (model (self st)) (Single query)
    (first_config s (declared decls)) w1 = (w2, Returns resp) ->
  candidates resp = [] ->
  process_query peers s query st
  = (after_first_request s query st decls w2, Raises IndexError).
Proof. apply no_candidates_raises. Qed.

(** X6.  With a session, every query asks the provider for its catalog
    exactly once, before anything else, whatever happens afterwards: the
    catalog is never cached between queries nor fetched twice within one. *)
Theorem one_catalog_fetch_per_query s query st :
  is_Some (session (self st)) ->
  ∃ rest,
    log (process_query peers s query st).1 = log st ++ EvListTools :: rest
    ∧ filter is_list_tools rest = [].
Proof. apply process_query_fetches_once. Qed.


(** ** Opening and closing *)


(** X9.  When [connect] returns, the client has a session, and exactly two
    more contexts are open and on the exit stack: the stdio transport and,
    on top of it, the client session. *)
Theorem connect_opens_transport_and_session s path st :
  (connect peers s path st).2 = Returns tt ->
  is_Some (session (self (connect peers s path st).1))
  ∧ held (connect peers s path st).1
    = SessionContext :: StdioTransport (server_params s path (self st))
        :: held st
  ∧ exit_stack (self (connect peers s path st).1)
    = SessionContext :: StdioTransport (server_params s path (self st))
        :: exit_stack (self st).
Proof.
  intros Hret.
  destruct (connect_holds peers s path st Hret) as (? & ? & ? & _).
  done.
Qed.


(** ** The two [main]s *)

Lemma filter_exit_forall (evs : list Event) :
  Forall (fun ev => is_exit ev = false) evs -> filter is_exit evs = [].
Proof.
  induction 1 as [|ev evs Hev _ IH]; [done|].
  rewrite filter_cons. by destruct (is_exit ev).
Qed.

(** [main] of the first script once [connect] has returned. *)
Lemma main_gemini_after_connect environ w client :
  init ClientGemini environ = Returns client ->
  (connect peers ClientGemini "server.py" (mkState w [] [] client)).2
    = Returns tt ->
  let st1 := (connect peers ClientGemini "server.py"
                (mkState w [] [] client)).1 in
  let p := server_params ClientGemini "server.py" client in
  held st1 = [SessionContext; StdioTransport p]
  ∧ exit_stack (self st1) = [SessionContext; StdioTransport p]
  ∧ filter is_exit (log st1) = []
  ∧ main peers ClientGemini environ w
    = match process_query peers ClientGemini "Hey, how are you doing?" st1 with
      | (st2, Returns _) => (observe (cleanup st2).1, Returns tt)
      | (st2, Raises e) => (observe st2, Raises e)
      end.
Proof.
  intros Hinit Hconnect st1 p.
  destruct (init_fresh _ _ _ Hinit) as [_ Hfresh].
  destruct (connect_holds peers _ _ _ Hconnect)
    as (_ & Hstack & Hheld & evs & Hlog & Hevs).
  fold st1 in Hstack, Hheld, Hlog.
  cbn [self held log exit_stack app] in Hstack, Hheld, Hlog.
  rewrite Hfresh in Hstack. split_and!; [done|done| |].
  - rewrite Hlog, !filter_cons. cbn [is_exit]. by apply filter_exit_forall.
  - unfold main. rewrite Hinit. cbn [main_body]. unfold bind at 1.
    subst st1.
    destruct (connect peers ClientGemini "server.py" _) as [st1 o].
    cbn [fst snd] in *. subst o. unfold bind at 1.
    destruct (process_query peers ClientGemini _ st1) as [st2 [answer|e]];
      [|done].
    reflexivity.
Qed.


(** X12.  [main] of the first script, when its query raises: the exception
    leaves [main] before [cleanup]; the transport and the session that
    [connect] opened stay open and no context is left.  This holds for
    every peer and every exception. *)
Theorem main_gemini_skips_cleanup_on_error environ w client e :
  init ClientGemini environ = Returns client ->
  (connect peers ClientGemini "server.py" (mkState w [] [] client)).2
    = Returns tt ->
  (process_query peers ClientGemini "Hey, how are you doing?"
     (connect peers ClientGemini "server.py" (mkState w [] [] client)).1).2
    = Raises e ->
  (main peers ClientGemini environ w).2 = Raises e
  ∧ final_held (main peers ClientGemini environ w).1
    = [SessionContext;
       StdioTransport (server_params ClientGemini "server.py" client)]
  ∧ filter is_exit (final_log (main peers ClientGemini environ w).1) = [].
Proof.
  intros Hinit Hconnect Hraise.
  destruct (main_gemini_after_connect environ w client Hinit Hconnect)
    as (Hheld & Hstack & Hexits & ->).
  destruct (process_query_frame peers ClientGemini "Hey, how are you doing?"
              (connect peers ClientGemini "server.py"
                 (mkState w [] [] client)).1)
    as [(Hself & Hheld2 & Hexits2) _].
  destruct (process_query peers ClientGemini _ _) as [st2 o].
  cbn [fst snd] in *. subst o. cbn [fst snd observe final_held final_log].
  split_and!; [done|congruence|congruence].
Qed.


(** X14.  [except Exception] does not catch everything: when the first
    query of the second script raises an exception that is no [Exception]
    (a cancellation, a keyboard interrupt), it leaves [main] at once; the
    second query is not run, [cleanup] is not reached and both contexts
    stay open. *)
Theorem main_github_skips_cleanup_on_cancellation environ w client e :
  init ClientGeminiGithub environ = Returns client ->
  (connect peers ClientGeminiGithub "" (mkState w [] [] client)).2
    = Returns tt ->
  (process_query peers ClientGeminiGithub "List my recent repositories"
     (connect peers ClientGeminiGithub "" (mkState w [] [] client)).1).2
    = Raises e ->
  is_Exception e = false ->
  (main peers ClientGeminiGithub environ w).2 = Raises e
  ∧ final_held (main peers ClientGeminiGithub environ w).1
    = [SessionContext;
       StdioTransport (server_params ClientGeminiGithub "" client)]
  ∧ final_log (main peers ClientGeminiGithub environ w).1
    = log (process_query peers ClientGeminiGithub
             "List my recent repositories"
             (connect peers ClientGeminiGithub ""
                (mkState w [] [] client)).1).1.
Proof.
  intros Hinit Hconnect Hraise Hbase.
  destruct (init_fresh _ _ _ Hinit) as [_ Hfresh].
  destruct (connect_holds peers _ _ _ Hconnect)
    as (_ & Hstack & Hheld & _).
  cbn [self held log exit_stack app] in Hstack, Hheld.
  destruct (process_query_frame peers ClientGeminiGithub
              "List my recent repositories"
              (connect peers ClientGeminiGithub ""
                 (mkState w [] [] client)).1)
    as [(Hself & Hheld2 & _) _].
  assert (Hmain : main peers ClientGeminiGithub environ w
                  = (observe (process_query peers ClientGeminiGithub
                                "List my recent repositories"
                                (connect peers ClientGeminiGithub ""
                                   (mkState w [] [] client)).1).1,
                     Raises e)).
  { unfold main. rewrite Hinit. cbn [main_body each_query].
    unfold bind at 1.
    destruct (connect peers ClientGeminiGithub "" _) as [st1 o].
    cbn [fst snd] in *. subst o.
    unfold bind at 1. unfold bind at 1. unfold try_except_Exception.
    unfold bind at 1.
    destruct (process_query peers ClientGeminiGithub _ st1) as [st2 o].
    cbn [fst snd] in *. subst o. by rewrite Hbase. }
  rewrite Hmain. cbn [fst snd observe final_held final_log].
  split_and!; [done|congruence|done].
Qed.

(** ** What of a tool answer reaches the model *)

Section Blur.

Context (g : CallToolResult -> CallToolResult).

Lemma shadows_ret {A} (a : A) : shadows g (W:=W) (ret a) (ret a).
Proof. intros st l. exists []. cbn. by rewrite !app_nil_r. Qed.

Lemma shadows_raise {A} e : shadows g (W:=W) (A:=A) (raise e) (raise e).
Proof. intros st l. exists []. cbn. by rewrite !app_nil_r. Qed.

Lemma shadows_lift {A} (o : Outcome A) :
  shadows g (W:=W) (lift o) (lift o).
Proof. intros st l. exists []. cbn. by rewrite !app_nil_r. Qed.

Lemma shadows_bind {A B} (m1 m2 : M A) (k1 k2 : A -> M B) :
  shadows g (W:=W) m1 m2 ->
  (forall a, shadows g (k1 a) (k2 a)) ->
  shadows g (bind m1 k1) (bind m2 k2).
Proof.
  intros Hm Hk st l. destruct (Hm st l) as (evs1 & Hlog1 & Hrun).
  unfold bind. rewrite Hrun.
  destruct (m1 st) as [st1 [a|e]]; cbn [fst snd] in *.
  - destruct (Hk a st1 (l ++ map (blur_event g) evs1))
      as (evs2 & Hlog2 & Hrun2).
    exists (evs1 ++ evs2). rewrite Hrun2, Hlog2, Hlog1, map_app.
    by rewrite !app_assoc.
  - by exists evs1.
Qed.

Lemma shadows_list_tools :
  shadows g (session_list_tools peers)
    (session_list_tools (blur_peers g peers)).
Proof.
  intros st l. unfold session_list_tools. cbn [relog self world].
  destruct (session (self st)).
  - cbn [blur_peers list_tools].
    destruct (list_tools peers (world st)) as [w r].
    exists [EvListTools]. by cbn.
  - exists []. cbn. by rewrite !app_nil_r.
Qed.

Lemma shadows_generate contents config :
  shadows g (models_generate_content peers contents config)
    (models_generate_content (blur_peers g peers) contents config).
Proof.
  intros st l. unfold models_generate_content. cbn [relog self world].
  cbn [blur_peers generate_content].
  destruct (generate_content peers (model (self st)) contents config (world st))
    as [w r].
  eexists [_]. by cbn.
Qed.

Lemma keeps_first_text_head r :
  keeps_first_text g ->
  match result_content r, result_content (g r) with
  | [], [] => True
  | first :: _, first' :: _ => text first' = text first
  | _, _ => False
  end.
Proof.
  intros Hg. specialize (Hg r).
  destruct (result_content r), (result_content (g r)); cbn in Hg;
    simplify_eq; done.
Qed.

(** One step of the loop: the call, [content[0]], and what follows. *)
Lemma shadows_call {B} name arguments (k1 k2 : TextContent -> M B) :
  keeps_first_text g ->
  (forall first first',
     text first' = text first -> shadows g (W:=W) (k1 first) (k2 first')) ->
  shadows g
    (bind (session_call_tool peers name arguments)
       (fun result => bind (index0 (result_content result)) k1))
    (bind (session_call_tool (blur_peers g peers) name arguments)
       (fun result => bind (index0 (result_content result)) k2)).
Proof.
  intros Hg Hk st l.
  match goal with |- context [log (?m st).1] =>
    destruct (m st) as [st1 o1] eqn:Hrun1 end.
  cbn [fst snd].
  unfold bind, session_call_tool in Hrun1 |- *.
  cbn [relog self world]. destruct (session (self st)); cycle 1.
  { injection Hrun1 as <- <-. exists []. cbn. by rewrite !app_nil_r. }
  cbn [blur_peers call_tool fst snd].
  destruct (call_tool peers name arguments (world st)) as [w [r|e]];
    cbn [fst snd blur_answer]; cycle 1.
  { injection Hrun1 as <- <-. eexists [_]. by cbn. }
  pose proof (keeps_first_text_head r Hg) as Hhead.
  destruct (result_content r) as [|first more],
           (result_content (g r)) as [|first' more']; try done;
    cbn [index0 raise ret] in Hrun1 |- *.
  { injection Hrun1 as <- <-. eexists [_]. by cbn. }
  destruct (Hk first first' Hhead
              (emit w (EvCallTool name arguments (Returns r)) st)
              (l ++ [EvCallTool name arguments (Returns (g r))]))
    as (evs & Hlog & Hrun2).
  rewrite Hrun1 in Hlog, Hrun2. cbn [fst snd emit log] in Hlog, Hrun2.
  eexists (_ :: evs). split.
  - rewrite Hlog. by rewrite <- app_assoc.
  - unfold emit, relog in *. cbn [world log held self] in *.
    rewrite Hrun2. cbn [map blur_event blur_answer]. by rewrite <- app_assoc.
Qed.

Lemma shadows_dispatch ps :
  keeps_first_text g ->
  forall acc called,
    shadows g (dispatch peers ps acc called)
      (dispatch (blur_peers g peers) ps acc called).
Proof.
  intros Hg. induction ps as [|part rest IH]; intros acc called.
  { apply shadows_ret. }
  cbn [dispatch]. destruct (function_call part) as [fc|]; [|apply IH].
  apply shadows_call; [done|].
  intros first first' ->. apply IH.
Qed.

Lemma shadows_process_query s query :
  keeps_first_text g ->
  shadows g (process_query peers s query)
    (process_query (blur_peers g peers) s query).
Proof.
  intros Hg. unfold process_query, get_gemini_tools.
  apply shadows_bind.
  { apply shadows_bind; [apply shadows_list_tools|intros tools].
    apply shadows_bind; [apply shadows_lift|intros; apply shadows_ret]. }
  intros tools. apply shadows_bind; [apply shadows_generate|].
  intros response. apply shadows_bind.
  { destruct (candidates response); [apply shadows_raise|apply shadows_ret]. }
  intros candidate. apply shadows_bind; [by apply shadows_dispatch|].
  intros [tool_parts tool_called].
  destruct (negb tool_called); [apply shadows_ret|].
  apply shadows_bind; [apply shadows_generate|intros; apply shadows_ret].
Qed.

(** X15.  Of a tool answer, only [content[0].text] matters.  Rewrite the
    provider's results in any way that keeps that text (drop the other
    content items, flip [isError]): the query ends the same way, leaves the
    peers in the same state and sends the same calls and the same requests,
    in the same order. *)
Theorem only_the_first_text_matters s query st :
  keeps_first_text g ->
  ∃ evs,
    log (process_query peers s query st).1 = log st ++ evs
    ∧ log (process_query (blur_peers g peers) s query st).1
      = log st ++ map (blur_event g) evs
    ∧ world (process_query (blur_peers g peers) s query st).1
      = world (process_query peers s query st).1
    ∧ (process_query (blur_peers g peers) s query st).2
      = (process_query peers s query st).2.
Proof.
  intros Hg.
  destruct (shadows_process_query s query Hg st (log st))
    as (evs & Hlog & Hrun).
  exists evs. replace (relog (log st) st) with st in Hrun by by destruct st.
  by rewrite Hrun.
Qed.

End Blur.

End Client.

(** ** Construction *)

(** X16.  When the constructor returns, the client is not connected and its
    exit stack is empty; it carries the Gemini key of the environment and
    the model named by GEMINI_MODEL, or "gemini-2.5-flash" when that
    variable is not set. *)
Theorem init_returns_a_fresh_client s environ client :
  init s environ = Returns client ->
  session client = None
  ∧ exit_stack client = []
  ∧ getenv environ "GEMINI_API_KEY" = Some (api_key client)
  ∧ api_key client ≠ ""
  ∧ model client
    = match getenv environ "GEMINI_MODEL" with
      | Some m => m
      | None => "gemini-2.5-flash"
      end.
Proof.
  unfold init, getenv, getenv_default.
  destruct (environ !! "GEMINI_API_KEY") as [k|] eqn:Hk; cbn [not_str];
    [|done].
  case_bool_decide as Hempty; [done|].
  destruct s.
  - intros [= <-]. cbn. by destruct (environ !! "GEMINI_MODEL").
  - destruct (_ || _); [done|]. intros [= <-]. cbn.
    by destruct (environ !! "GEMINI_MODEL").
Qed.

(** X17.  The second script also needs a GitHub token: with a Gemini key
    but with the token unset, empty, or left at the placeholder of the
    sample [.env], its constructor raises [ValueError] with the message
    that tells where to get one. *)
Theorem github_token_is_required environ :
  not_str (getenv environ "GEMINI_API_KEY") = false ->
  not_str (getenv environ "GITHUB_PERSONAL_ACCESS_TOKEN") = true
  ∨ getenv environ "GITHUB_PERSONAL_ACCESS_TOKEN"
    = Some "your-github-token-here" ->
  init ClientGeminiGithub environ = Raises (ValueError github_token_message).
Proof.
  intros Hkey Htoken. unfold init. rewrite Hkey.
  destruct Htoken as [-> | ->]; [done|].
  by rewrite orb_true_r.
Qed.

(** *** Instances of the further properties of the clients *)

Import Faults.


Lemma process_query_before_connect_witness :
  process_query (peers two_calls) ClientGemini "hello" (fresh ClientGemini)
  = (fresh ClientGemini, Raises (no_session "list_tools")).
Proof.
  apply (process_query_before_connect (peers two_calls) ClientGemini "hello"
           (fresh ClientGemini)).
  reflexivity.
Defined.

Lemma catalog_failure_propagates_witness :
  process_query (with_list_tools (Raises handshake_refused) (peers two_calls))
    ClientGemini "hello" (start ClientGemini)
  = (emit 0 EvListTools (start ClientGemini), Raises handshake_refused).
Proof.
  apply (catalog_failure_propagates
           (with_list_tools (Raises handshake_refused) (peers two_calls))
           ClientGemini "hello" (start ClientGemini) 0 handshake_refused).
  - by eexists.
  - reflexivity.
Defined.

Lemma first_completion_failure_propagates_witness :
  process_query (peers backend_down) ClientGemini "hello" (start ClientGemini)
  = (after_first_request ClientGemini "hello" (start ClientGemini)
       calculator_decls 1,
     Raises api_error).
Proof.
  apply (first_completion_failure_propagates (peers backend_down)
           ClientGemini "hello" (start ClientGemini) calculator_tools
           calculator_decls 0 1 api_error).
  - by eexists.
  - reflexivity.
  - reflexivity.
  - reflexivity.
Defined.

Lemma empty_candidate_list_is_an_IndexError_witness :
  process_query (peers no_candidates) ClientGemini "hello" (start ClientGemini)
  = (after_first_request ClientGemini "hello" (start ClientGemini)
       calculator_decls 1,
     Raises IndexError).
Proof.
  apply (empty_candidate_list_is_an_IndexError (peers no_candidates)
           ClientGemini "hello" (start ClientGemini) calculator_tools
           calculator_decls 0 1 (mkResponse [] None)).
  - by eexists.
  - reflexivity.
  - reflexivity.
  - reflexivity.
  - reflexivity.
Defined.

Lemma one_catalog_fetch_per_query_witness :
  ∃ rest,
    log run_two_calls.1 = log (start ClientGemini) ++ EvListTools :: rest
    ∧ filter is_list_tools rest = [].
Proof.
  apply (one_catalog_fetch_per_query (peers two_calls) ClientGemini
           "2+3 and 9-4" (start ClientGemini)).
  by eexists.
Defined.


Lemma connect_opens_transport_and_session_witness :
  is_Some (session (self (connect (peers two_calls) ClientGemini "server.py"
                            (fresh ClientGemini)).1))
  ∧ held (connect (peers two_calls) ClientGemini "server.py"
            (fresh ClientGemini)).1
    = [SessionContext; StdioTransport (mkParams "python" ["server.py"] None)]
  ∧ exit_stack (self (connect (peers two_calls) ClientGemini "server.py"
                        (fresh ClientGemini)).1)
    = [SessionContext; StdioTransport (mkParams "python" ["server.py"] None)].
Proof.
  apply (connect_opens_transport_and_session (peers two_calls) ClientGemini
           "server.py" (fresh ClientGemini)).
  reflexivity.
Defined.



Lemma main_gemini_skips_cleanup_on_error_witness :
  (main (peers backend_down) ClientGemini environ 0).2 = Raises api_error
  ∧ final_held (main (peers backend_down) ClientGemini environ 0).1
    = [SessionContext; StdioTransport (mkParams "python" ["server.py"] None)]
  ∧ filter is_exit
      (final_log (main (peers backend_down) ClientGemini environ 0).1) = [].
Proof.
  apply (main_gemini_skips_cleanup_on_error (peers backend_down) environ 0
           (self (fresh ClientGemini)) api_error).
  - reflexivity.
  - reflexivity.
  - reflexivity.
Defined.


Lemma main_github_skips_cleanup_on_cancellation_witness :
  (main (peers backend_cancelled) ClientGeminiGithub environ 0).2
  = Raises cancelled
  ∧ final_held (main (peers backend_cancelled) ClientGeminiGithub environ 0).1
    = [SessionContext;
       StdioTransport
         (server_params ClientGeminiGithub ""
            (self (fresh ClientGeminiGithub)))]
  ∧ final_log (main (peers backend_cancelled) ClientGeminiGithub environ 0).1
    = log (process_query (peers backend_cancelled) ClientGeminiGithub
             "List my recent repositories"
             (connect (peers backend_cancelled) ClientGeminiGithub ""
                (fresh ClientGeminiGithub)).1).1.
Proof.
  apply (main_github_skips_cleanup_on_cancellation (peers backend_cancelled)
           environ 0 (self (fresh ClientGeminiGithub)) cancelled).
  - reflexivity.
  - reflexivity.
  - reflexivity.
  - reflexivity.
Defined.

Lemma keeps_first_text_first_item_only : keeps_first_text first_item_only.
Proof. intros r. cbn. by destruct (result_content r). Qed.

Lemma only_the_first_text_matters_witness :
  ∃ evs,
    log run_two_items.1 = log (start ClientGemini) ++ evs
    ∧ log (process_query (blur_peers first_item_only (peers two_items))
             ClientGemini "2+3" (start ClientGemini)).1
      = log (start ClientGemini) ++ map (blur_event first_item_only) evs
    ∧ world (process_query (blur_peers first_item_only (peers two_items))
               ClientGemini "2+3" (start ClientGemini)).1
      = world run_two_items.1
    ∧ (process_query (blur_peers first_item_only (peers two_items))
         ClientGemini "2+3" (start ClientGemini)).2
      = run_two_items.2.
Proof.
  apply (only_the_first_text_matters (peers two_items) first_item_only
           ClientGemini "2+3" (start ClientGemini)).
  exact keeps_first_text_first_item_only.
Defined.

Lemma init_returns_a_fresh_client_witness :
  session (self (fresh ClientGeminiGithub)) = None
  ∧ exit_stack (self (fresh ClientGeminiGithub)) = []
  ∧ getenv environ "GEMINI_API_KEY"
    = Some (api_key (self (fresh ClientGeminiGithub)))
  ∧ api_key (self (fresh ClientGeminiGithub)) ≠ ""
  ∧ model (self (fresh ClientGeminiGithub))
    = match getenv environ "GEMINI_MODEL" with
      | Some m => m
      | None => "gemini-2.5-flash"
      end.
Proof.
  apply (init_returns_a_fresh_client ClientGeminiGithub environ
           (self (fresh ClientGeminiGithub))).
  reflexivity.
Defined.

Lemma github_token_is_required_witness :
  init ClientGeminiGithub
    {[ "GEMINI_API_KEY" := key;
       "GITHUB_PERSONAL_ACCESS_TOKEN" := "your-github-token-here" ]}
  = Raises (ValueError github_token_message).
Proof.
  apply (github_token_is_required
           {[ "GEMINI_API_KEY" := key;
              "GITHUB_PERSONAL_ACCESS_TOKEN" := "your-github-token-here" ]}).
  - reflexivity.
  - right. reflexivity.
Defined.

(** * Further properties of the weather server *)

Section Conversion.

Import WeatherServer Scales.

Context {F : Type} (py : Builtins F).

Lemma spells_valid sc unit : spells sc unit -> is_valid_unit unit = true.
Proof. by intros [-> | ->]; destruct sc. Qed.

Lemma spells_full_name sc unit : spells sc unit -> full_name unit = name sc.
Proof. by intros [-> | ->]; destruct sc. Qed.

Lemma valid_spells unit :
  is_valid_unit unit = true -> ∃ sc, spells sc unit.
Proof.
  unfold is_valid_unit, valid_units. intros Hin%bool_decide_eq_true.
  repeat (apply elem_of_cons in Hin as [-> | Hin]);
    [by exists Celsius; left|by exists Fahrenheit; left|by exists Kelvin; left
    |by exists Celsius; right|by exists Fahrenheit; right
    |by exists Kelvin; right|by apply elem_of_nil in Hin].
Qed.

Lemma name_inj a b : name a = name b -> a = b.
Proof. by destruct a, b. Qed.

(** Past the guards. *)
Lemma convert_temperature_accepted temperature from_unit to_unit v a b :
  blank py temperature = false ->
  blank py from_unit = false ->
  blank py to_unit = false ->
  spells a (lower py from_unit) ->
  spells b (lower py to_unit) ->
  float_of_str py temperature = Some v ->
  convert_temperature py temperature from_unit to_unit
  = if bool_decide (name a = name b) then
      Returns
        ("✅ " ++ float_str py v ++ "° " ++ title py (name a)
         ++ " = " ++ float_str py v ++ "° " ++ title py (name b))%string
    else
      try_except
        (and_then
           (if bool_decide (name a = "celsius") then Returns v
            else if bool_decide (name a = "fahrenheit")
                 then fahrenheit_to_celsius py v
                 else kelvin_to_celsius py v)
           (fun celsius =>
              and_then
                (if bool_decide (name b = "celsius") then Returns celsius
                 else if bool_decide (name b = "fahrenheit")
                      then celsius_to_fahrenheit py celsius
                      else Returns (fadd py celsius (float_273_15 py)))
                (fun result =>
                   Returns
                     ("🌡️ **Temperature Conversion**" ++ newline
                      ++ float_str py v ++ symbol (name a)
                      ++ " = " ++ float_2f py result
                      ++ symbol (name b))%string)))
        (fun e => Returns ("❌ Error: " ++ exn_msg e)%string).
Proof.
  intros Ht Hf Hu Ha Hb Hv. unfold convert_temperature.
  rewrite Ht, Hf, Hu, (spells_valid a), (spells_valid b), Hv by done.
  cbn [orb negb].
  change (normalize "k" "kelvin"
            (normalize "f" "fahrenheit"
               (normalize "c" "celsius" (lower py from_unit))))
    with (full_name (lower py from_unit)).
  change (normalize "k" "kelvin"
            (normalize "f" "fahrenheit"
               (normalize "c" "celsius" (lower py to_unit))))
    with (full_name (lower py to_unit)).
  by rewrite (spells_full_name a), (spells_full_name b).
Qed.

(** The conversion itself, by pair of scales. *)
Lemma conversion_between v a b :
  a <> b ->
  try_except
    (and_then
       (if bool_decide (name a = "celsius") then Returns v
        else if bool_decide (name a = "fahrenheit")
             then fahrenheit_to_celsius py v
             else kelvin_to_celsius py v)
       (fun celsius =>
          and_then
            (if bool_decide (name b = "celsius") then Returns celsius
             else if bool_decide (name b = "fahrenheit")
                  then celsius_to_fahrenheit py celsius
                  else Returns (fadd py celsius (float_273_15 py)))
            (fun result =>
               Returns
                 ("🌡️ **Temperature Conversion**" ++ newline
                  ++ float_str py v ++ symbol (name a)
                  ++ " = " ++ float_2f py result
                  ++ symbol (name b))%string)))
    (fun e => Returns ("❌ Error: " ++ exn_msg e)%string)
  = Returns
      match between py a b v with
      | Returns result =>
          ("🌡️ **Temperature Conversion**" ++ newline
           ++ float_str py v ++ unit_symbol a
           ++ " = " ++ float_2f py result ++ unit_symbol b)%string
      | Raises e => ("❌ Error: " ++ exn_msg e)%string
      end.
Proof.
  intros Hab.
  destruct a, b; try done; cbn;
    unfold fahrenheit_to_celsius, celsius_to_fahrenheit, kelvin_to_celsius,
      kelvin_to_fahrenheit, truediv;
    repeat (case_match; cbn); simplify_eq; done.
Qed.

(** X18.  Two unit arguments that spell the same scale (in either spelling
    and any letter case that [lower] folds) give the echo line: the parsed
    value printed twice with the title-cased full name of the scale, and no
    arithmetic on it. *)
Theorem same_scale_is_echoed temperature from_unit to_unit v sc :
  blank py temperature = false ->
  blank py from_unit = false ->
  blank py to_unit = false ->
  spells sc (lower py from_unit) ->
  spells sc (lower py to_unit) ->
  float_of_str py temperature = Some v ->
  convert_temperature py temperature from_unit to_unit
  = Returns
      ("✅ " ++ float_str py v ++ "° " ++ title py (name sc)
       ++ " = " ++ float_str py v ++ "° " ++ title py (name sc))%string.
Proof.
  intros Ht Hf Hu Ha Hb Hv.
  rewrite (convert_temperature_accepted _ _ _ v sc sc) by done.
  by rewrite bool_decide_true.
Qed.

(** X19.  For two different scales the tool's two-step computation through
    Celsius is the unit helper for that pair, [kelvin_to_fahrenheit]
    included although the tool never calls it; the answer shows the parsed
    value and the converted one with the symbols of the two scales, or the
    message of the exception the helper raised. *)
Theorem conversion_agrees_with_the_helpers
    temperature from_unit to_unit v a b :
  blank py temperature = false ->
  blank py from_unit = false ->
  blank py to_unit = false ->
  spells a (lower py from_unit) ->
  spells b (lower py to_unit) ->
  a <> b ->
  float_of_str py temperature = Some v ->
  convert_temperature py temperature from_unit to_unit
  = Returns
      match between py a b v with
      | Returns result =>
          ("🌡️ **Temperature Conversion**" ++ newline
           ++ float_str py v ++ unit_symbol a
           ++ " = " ++ float_2f py result ++ unit_symbol b)%string
      | Raises e => ("❌ Error: " ++ exn_msg e)%string
      end.
Proof.
  intros Ht Hf Hu Ha Hb Hab Hv.
  rewrite (convert_temperature_accepted _ _ _ v a b) by done.
  rewrite bool_decide_false by (by intros ?%name_inj).
  by apply conversion_between.
Qed.

(** With 5.0 and 9.0 different from zero no division raises. *)
Lemma between_returns a b v :
  is_zero py (float_of_int py 5) = false ->
  is_zero py (float_of_int py 9) = false ->
  ∃ result, between py a b v = Returns result.
Proof.
  intros H5 H9.
  destruct a, b; cbn;
    unfold fahrenheit_to_celsius, celsius_to_fahrenheit, kelvin_to_celsius,
      kelvin_to_fahrenheit, truediv;
    rewrite ?H5, ?H9; cbn; by eexists.
Qed.

(** X20.  Given that the floats 5.0 and 9.0 are not zero, the answer starts
    with the cross mark exactly when an argument was rejected: a blank
    temperature or unit, a unit that is none of the six names once
    lower-cased, or a temperature [float] does not parse.  The handler
    around the arithmetic is never entered. *)
Theorem error_marker_iff_rejected temperature from_unit to_unit :
  is_zero py (float_of_int py 5) = false ->
  is_zero py (float_of_int py 9) = false ->
  ∃ answer,
    convert_temperature py temperature from_unit to_unit = Returns answer
    ∧ (String.prefix "❌" answer = true
       <-> blank py temperature = true
           ∨ blank py from_unit = true
           ∨ blank py to_unit = true
           ∨ is_valid_unit (lower py from_unit) = false
           ∨ is_valid_unit (lower py to_unit) = false
           ∨ float_of_str py temperature = None).
Proof.
  intros H5 H9.
  destruct (blank py temperature) eqn:Ht.
  { unfold convert_temperature. rewrite Ht. eexists. split; [done|].
    split; [by left|done]. }
  destruct (blank py from_unit) eqn:Hf.
  { unfold convert_temperature. rewrite Ht, Hf. eexists. split; [done|].
    split; [by right; left|done]. }
  destruct (blank py to_unit) eqn:Hu.
  { unfold convert_temperature. rewrite Ht, Hf, Hu. eexists. split; [done|].
    split; [by do 2 right; left|done]. }
  destruct (is_valid_unit (lower py from_unit)) eqn:Hfrom.
  2:{ unfold convert_temperature. rewrite Ht, Hf, Hu, Hfrom. eexists.
      split; [done|]. split; [by do 3 right; left|done]. }
  destruct (is_valid_unit (lower py to_unit)) eqn:Hto.
  2:{ unfold convert_temperature. rewrite Ht, Hf, Hu, Hfrom, Hto. eexists.
      split; [done|]. split; [by do 4 right; left|done]. }
  destruct (float_of_str py temperature) as [v|] eqn:Hv.
  2:{ unfold convert_temperature. rewrite Ht, Hf, Hu, Hfrom, Hto, Hv. eexists.
      split; [done|]. split; [by do 5 right|done]. }
  destruct (valid_spells _ Hfrom) as [a Ha], (valid_spells _ Hto) as [b Hb].
  assert (Hfine : ¬ (false = true ∨ false = true ∨ false = true
                     ∨ true = false ∨ true = false ∨ Some v = None))
    by (intros [?|[?|[?|[?|[?|?]]]]]; done).
  rewrite (convert_temperature_accepted _ _ _ v a b) by done.
  case_bool_decide as Hab.
  - eexists. split; [done|]. split; [done|by intros ?%Hfine].
  - rewrite conversion_between by congruence.
    destruct (between_returns a b v H5 H9) as [result ->].
    eexists. split; [done|]. split; [done|by intros ?%Hfine].
Qed.

End Conversion.

(** ** The two formatters *)

Section Formatters.

Import WeatherServer OpenWeather Reports.

Context {F DT : Type} (py : Builtins F) (fm : Formatting F DT).

Implicit Types (v data : Json F) (o : Outcome string).

Lemma get_within v key dflt : within (fun _ => True) (get v key dflt).
Proof. by destruct v. Qed.

Lemma getitem0_within v : within (fun _ => True) (getitem0 fm v).
Proof. destruct v as [| | | |s|[|first items]|]; cbn; try done. by destruct (chars fm s). Qed.

Lemma title_of_within v : within (fun _ => True) (title_of py v).
Proof. by destruct v. Qed.

Lemma int_1f_within n : within (fun _ => True) (int_1f fm n).
Proof. unfold int_1f. by destruct (float_of_Z fm n). Qed.

Lemma format_1f_within v : within (fun _ => True) (format_1f fm v).
Proof. destruct v; cbn; try done; apply int_1f_within. Qed.

Lemma place_within x : within (fun _ => True) (place fm x).
Proof. unfold place. by destruct (localtime fm x) as [dt|[msg|msg|msg]]. Qed.

Lemma fromtimestamp_within v : within (fun _ => True) (fromtimestamp fm v).
Proof. destruct v; cbn; try done; apply place_within. Qed.

Lemma iter_within v : within (fun _ => True) (iter fm v).
Proof. by destruct v. Qed.

Lemma and_then_within {A B} (good : B -> Prop) (o : Outcome A)
    (k : A -> Outcome B) :
  within (fun _ => True) o ->
  (forall a, within good (k a)) ->
  within good (and_then o k).
Proof. destruct o as [a|e]; cbn; [intros _ Hk; apply Hk|done]. Qed.

Lemma try_except_within (good : string -> Prop) o (h : Exn -> string) :
  within good o ->
  (forall e, good (h e)) ->
  ∃ answer, try_except o (fun e => Returns (h e)) = Returns answer ∧ good answer.
Proof.
  destruct o as [a|e]; cbn.
  - intros Ha _. by exists a.
  - intros -> Hh. by eexists.
Qed.

Lemma prefix_app (p s t : string) :
  String.prefix p s = true -> String.prefix p (s ++ t)%string = true.
Proof.
  revert s. induction p as [|c p IH]; intros s; [by destruct (s ++ t)%string|].
  destruct s as [|c' s]; simpl; [done|].
  destruct (Ascii.ascii_dec c c'); [apply IH|done].
Qed.

Lemma prefix_self_app (p t : string) : String.prefix p (p ++ t)%string = true.
Proof.
  induction p as [|c p IH]; simpl; [by destruct t|].
  by destruct (Ascii.ascii_dec c c).
Qed.

Lemma format_weather_data_returns data units :
  ∃ answer,
    format_weather_data py fm data units = Returns answer
    ∧ (String.prefix "🌍 **" answer = true
       ∨ String.prefix "❌ Error formatting weather data: " answer = true).
Proof.
  unfold format_weather_data.
  apply (try_except_within
           (fun answer =>
              String.prefix "🌍 **" answer = true
              ∨ String.prefix "❌ Error formatting weather data: " answer = true)
           _ (fun e => ("❌ Error formatting weather data: " ++ exn_msg e)%string));
    [|intros e; right; apply prefix_self_app].
  do 9 (apply and_then_within; [apply get_within|intros ?]).
  apply and_then_within; [apply getitem0_within|intros ?].
  apply and_then_within; [apply get_within|intros ?].
  apply and_then_within; [apply title_of_within|intros ?].
  do 6 (apply and_then_within; [apply get_within|intros ?]).
  do 5 (apply and_then_within; [apply format_1f_within|intros ?]).
  left. apply prefix_self_app.
Qed.

Lemma forecast_lines_within (items : list (Json F)) :
  forall temp_unit result current_date,
    String.prefix "📅 **5-Day Forecast for " result = true ->
    within (fun answer => String.prefix "📅 **5-Day Forecast for " answer = true)
      (forecast_lines py fm items temp_unit result current_date).
Proof.
  induction items as [|item rest IH]; intros temp_unit result current_date Hp;
    [done|].
  cbn [forecast_lines].
  apply and_then_within; [apply get_within|intros stamp].
  apply and_then_within; [apply fromtimestamp_within|intros dt].
  do 3 (apply and_then_within; [apply get_within|intros ?]).
  apply and_then_within; [apply getitem0_within|intros ?].
  apply and_then_within; [apply get_within|intros ?].
  apply and_then_within; [apply title_of_within|intros ?].
  apply and_then_within; [apply format_1f_within|intros ?].
  apply IH, prefix_app.
  repeat case_match; repeat apply prefix_app; done.
Qed.

Lemma format_forecast_data_returns data units :
  ∃ answer,
    format_forecast_data py fm data units = Returns answer
    ∧ (String.prefix "📅 **5-Day Forecast for " answer = true
       ∨ answer = "❌ No forecast data available"
       ∨ String.prefix "❌ Error formatting forecast data: " answer = true).
Proof.
  unfold format_forecast_data.
  apply (try_except_within
           (fun answer =>
              String.prefix "📅 **5-Day Forecast for " answer = true
              ∨ answer = "❌ No forecast data available"
              ∨ String.prefix "❌ Error formatting forecast data: " answer = true)
           _ (fun e => ("❌ Error formatting forecast data: " ++ exn_msg e)%string));
    [|intros e; do 2 right; apply prefix_self_app].
  apply and_then_within; [apply get_within|intros city_of].
  apply and_then_within; [apply get_within|intros city].
  apply and_then_within; [apply get_within|intros country_of].
  apply and_then_within; [apply get_within|intros country].
  apply and_then_within; [apply get_within|intros forecast_list].
  case_match; [by right; left|].
  apply and_then_within; [apply iter_within|intros items].
  pose proof (forecast_lines_within items
                (if bool_decide (units = "metric") then "°C" else "°F")
                ("📅 **5-Day Forecast for " ++ str py fm city ++ ", "
                 ++ str py fm country ++ "**" ++ newline ++ newline)%string ""
                (prefix_self_app _ _)) as Hloop.
  destruct (forecast_lines _ _ _ _ _ _); cbn in *; [by left|done].
Qed.


(** X22.  [format_forecast_data] never raises either, whatever
    [response.json()] delivered: it returns a text that starts with the
    title line of the forecast, or the no-data line, or one line that
    starts with its own error prefix. *)
Theorem format_forecast_data_never_raises data units :
  ∃ answer,
    format_forecast_data py fm data units = Returns answer
    ∧ (String.prefix "📅 **5-Day Forecast for " answer = true
       ∨ answer = "❌ No forecast data available"
       ∨ String.prefix "❌ Error formatting forecast data: " answer = true).
Proof. apply format_forecast_data_returns. Qed.

(** X23.  The default [[{}]] of [data.get("weather", [{}])] covers a
    missing key only: when the key is there with an empty list, [[0]]
    raises [IndexError] and the whole report is replaced by the error
    line, whatever the other fields hold. *)
Theorem empty_weather_list_is_an_error entries units :
  dict_or_absent "sys" entries ->
  dict_or_absent "main" entries ->
  lookup_key "weather" entries = Some (JList []) ->
  format_weather_data py fm (JDict entries) units
  = Returns "❌ Error formatting weather data: list index out of range".
Proof.
  intros Hsys Hmain Hweather. unfold format_weather_data. cbn [get and_then].
  destruct (lookup_key "sys" entries) as [sys|] eqn:Es;
    [destruct (Hsys sys Es) as [d ->]|];
    (destruct (lookup_key "main" entries) as [main|] eqn:Em;
     [destruct (Hmain main Em) as [d' ->]|]);
    cbn; by rewrite Hweather.
Qed.

(** X24.  Without forecast entries the answer is the no-data line, not an
    error: when [data] is a dictionary whose "city" is absent or a
    dictionary and whose "list" is absent or falsy ([[]], [None], [0],
    [""], [{}], [False]). *)
Theorem forecast_without_entries entries units :
  dict_or_absent "city" entries ->
  (forall v, lookup_key "list" entries = Some v -> truthy py v = false) ->
  format_forecast_data py fm (JDict entries) units
  = Returns "❌ No forecast data available".
Proof.
  intros Hcity Hlist. unfold format_forecast_data. cbn [get and_then].
  destruct (lookup_key "city" entries) as [city|] eqn:Ec;
    [destruct (Hcity city Ec) as [d ->]|];
    (destruct (lookup_key "list" entries) as [l|] eqn:El;
     [cbn; by rewrite (Hlist l eq_refl)|done]).
Qed.

End Formatters.

(** ** The two network tools *)

Section Tools.

Import WeatherServer OpenWeather Reports.

Context {F DT W : Type} (py : Builtins F) (fm : Formatting F DT).
Context (httpx : Httpx F W) (environ : gmap string string).

Implicit Types (st : Wire W) (city units : string).

(** Past the guards a tool sends its request and answers from the reply. *)
Lemma get_current_weather_admitted city units st :
  admitted py environ city units ->
  get_current_weather py fm httpx environ city units st
  = (mkWire
       (http_get httpx (request_for environ "/weather" city units) (net st)).1
       (sent st ++ [request_for environ "/weather" city units]),
     answer_of httpx (fun data => format_weather_data py fm data units) city
       (http_get httpx (request_for environ "/weather" city units) (net st)).2).
Proof.
  intros (Hcity & Hkey & Hunits).
  unfold get_current_weather, client_get, answer_of.
  rewrite Hcity, Hkey, bool_decide_true by done. cbn [negb].
  change (mkRequest (BASE_URL ++ "/weather")%string
            [("q", city); ("appid", API_KEY environ); ("units", units)] 10)
    with (request_for environ "/weather" city units).
  by destruct (http_get httpx _ _) as [w reply].
Qed.

Lemma get_forecast_admitted city units st :
  admitted py environ city units ->
  get_forecast py fm httpx environ city units st
  = (mkWire
       (http_get httpx (request_for environ "/forecast" city units) (net st)).1
       (sent st ++ [request_for environ "/forecast" city units]),
     answer_of httpx (fun data => format_forecast_data py fm data units) city
       (http_get httpx (request_for environ "/forecast" city units) (net st)).2).
Proof.
  intros (Hcity & Hkey & Hunits).
  unfold get_forecast, client_get, answer_of.
  rewrite Hcity, Hkey, bool_decide_true by done. cbn [negb].
  change (mkRequest (BASE_URL ++ "/forecast")%string
            [("q", city); ("appid", API_KEY environ); ("units", units)] 10)
    with (request_for environ "/forecast" city units).
  by destruct (http_get httpx _ _) as [w reply].
Qed.

(** A guard that fails answers at once, the same for both tools. *)
Lemma tools_rejected city units st :
  ¬ admitted py environ city units ->
  ∃ answer,
    get_current_weather py fm httpx environ city units st = (st, Returns answer)
    ∧ get_forecast py fm httpx environ city units st = (st, Returns answer)
    ∧ String.prefix "❌ Error: " answer = true.
Proof.
  intros Hno. unfold get_current_weather, get_forecast.
  destruct (blank py city) eqn:Hcity; [by eexists|].
  destruct (blank py (API_KEY environ)) eqn:Hkey; [by eexists|].
  case_bool_decide as Hunits; cbn [negb]; [|by eexists].
  by destruct Hno.
Qed.

Lemma admitted_dec city units :
  admitted py environ city units ∨ ¬ admitted py environ city units.
Proof.
  unfold admitted.
  destruct (blank py city); [right; by intros (? & _)|].
  destruct (blank py (API_KEY environ)); [right; by intros (_ & ? & _)|].
  destruct (decide (units ∈ ["metric"; "imperial"]));
    [by left|right; by intros (_ & _ & ?)].
Qed.

(** What the handlers make of a reply. *)
Lemma answer_of_returns (format : Json F -> Outcome string) city reply :
  (forall data, ∃ answer, format data = Returns answer) ->
  match reply with
  | Failed (Other e) => is_Exception e = true
  | Failed (HTTPStatusError _) => True
  | Done response =>
      match json response with
      | Failed (Other e) => is_Exception e = true
      | _ => True
      end
  end ->
  ∃ answer, answer_of httpx format city reply = Returns answer.
Proof.
  intros Hformat Hreply. unfold answer_of, raise_for_status.
  destruct reply as [response|[code|e]]; cbn [and_next].
  - destruct (is_success httpx (status_code response)); cbn [and_next];
      [|repeat case_bool_decide; by eexists].
    destruct (json response) as [data|[code|e]]; cbn [and_next].
    + destruct (Hformat data) as [answer ->]. by eexists.
    + repeat case_bool_decide; by eexists.
    + rewrite Hreply. by eexists.
  - repeat case_bool_decide; by eexists.
  - rewrite Hreply. by eexists.
Qed.

Lemma answer_of_status (format : Json F -> Outcome string) city response :
  is_success httpx (status_code response) = false ->
  answer_of httpx format city (Done response)
  = Returns
      (if bool_decide (status_code response = 404%Z) then
         "❌ City not found: " ++ city
       else if bool_decide (status_code response = 401%Z) then
         "❌ Invalid API key. Please check your OPENWEATHER_API_KEY."
       else "❌ API Error: " ++ pretty (status_code response))%string.
Proof.
  intros Hstatus. unfold answer_of, raise_for_status. cbn [and_next].
  rewrite Hstatus. cbn [and_next]. by repeat case_bool_decide.
Qed.

Lemma answer_of_not_caught (format : Json F -> Outcome string) city e :
  is_Exception e = false ->
  answer_of httpx format city (Failed (Other e)) = Raises e.
Proof. intros He. unfold answer_of. cbn [and_next]. by rewrite He. Qed.

(** X25.  Arguments that fail a guard (a blank city, a blank
    OPENWEATHER_API_KEY, units other than exactly "metric" or
    "imperial") get their answer without any request being sent: the wire
    is as it was, and the two tools give the same line, which starts with
    the error prefix. *)
Theorem rejected_arguments_send_nothing city units st :
  ¬ admitted py environ city units ->
  ∃ answer,
    get_current_weather py fm httpx environ city units st = (st, Returns answer)
    ∧ get_forecast py fm httpx environ city units st = (st, Returns answer)
    ∧ String.prefix "❌ Error: " answer = true.
Proof. apply tools_rejected. Qed.

(** X26.  Arguments that pass the guards cause exactly one GET, whatever
    the network replies: to [/weather] for the current weather and to
    [/forecast] for the forecast, with the city as it was given (not
    stripped), the key of the environment, the units, and a timeout of 10
    seconds. *)
Theorem admitted_arguments_send_one_request city units st :
  admitted py environ city units ->
  sent (get_current_weather py fm httpx environ city units st).1
  = sent st
    ++ [mkRequest "https://api.openweathermap.org/data/2.5/weather"
          [("q", city); ("appid", API_KEY environ); ("units", units)] 10]
  ∧ sent (get_forecast py fm httpx environ city units st).1
    = sent st
      ++ [mkRequest "https://api.openweathermap.org/data/2.5/forecast"
            [("q", city); ("appid", API_KEY environ); ("units", units)] 10].
Proof.
  intros Hok.
  by rewrite get_current_weather_admitted, get_forecast_admitted.
Qed.

(** X27.  With a network that raises nothing but [Exception]s, neither tool
    ever raises: whatever the arguments and whatever comes back (a refused
    connection, a timeout, an error status, a body that is not JSON or not
    of the expected shape), the caller gets a string. *)
Theorem tools_answer_with_a_string city units st :
  courteous httpx ->
  ∃ current forecast,
    (get_current_weather py fm httpx environ city units st).2 = Returns current
    ∧ (get_forecast py fm httpx environ city units st).2 = Returns forecast.
Proof.
  intros Hnet.
  destruct (admitted_dec city units) as [Hok|Hno].
  - rewrite get_current_weather_admitted, get_forecast_admitted by done.
    cbn [snd].
    destruct (answer_of_returns
                (fun data => format_weather_data py fm data units) city
                (http_get httpx (request_for environ "/weather" city units)
                   (net st)).2) as [current Hcurrent];
      [intros data;
       destruct (format_weather_data_returns py fm data units) as (a & -> & _);
       by eexists
      |apply Hnet|].
    destruct (answer_of_returns
                (fun data => format_forecast_data py fm data units) city
                (http_get httpx (request_for environ "/forecast" city units)
                   (net st)).2) as [forecast Hforecast];
      [intros data;
       destruct (format_forecast_data_returns py fm data units) as (a & -> & _);
       by eexists
      |apply Hnet|].
    by exists current, forecast.
  - destruct (tools_rejected city units st Hno) as (answer & -> & -> & _).
    by exists answer, answer.
Qed.

(** X28.  [except Exception] does not stop a cancellation: when the request
    raises an exception that is not an [Exception] ([CancelledError],
    [KeyboardInterrupt]), each tool raises it, after the one request it
    sent. *)
Theorem cancelled_request_is_not_answered city units st e :
  admitted py environ city units ->
  is_Exception e = false ->
  (forall request, (http_get httpx request (net st)).2 = Failed (Other e)) ->
  (get_current_weather py fm httpx environ city units st).2 = Raises e
  ∧ (get_forecast py fm httpx environ city units st).2 = Raises e.
Proof.
  intros Hok He Hget.
  rewrite get_current_weather_admitted, get_forecast_admitted by done.
  cbn [snd]. rewrite !Hget. by rewrite !answer_of_not_caught.
Qed.

(** X29.  A response whose status [raise_for_status] refuses is answered
    from the status code alone, by both tools alike and without reading the
    body: 404 names the city as it was given, 401 blames the key, any other
    code is printed. *)
Theorem status_errors_are_reported city units st response :
  admitted py environ city units ->
  is_success httpx (status_code response) = false ->
  (forall request, (http_get httpx request (net st)).2 = Done response) ->
  ∃ answer,
    (get_current_weather py fm httpx environ city units st).2 = Returns answer
    ∧ (get_forecast py fm httpx environ city units st).2 = Returns answer
    ∧ (status_code response = 404%Z ->
       answer = ("❌ City not found: " ++ city)%string)
    ∧ (status_code response = 401%Z ->
       answer = "❌ Invalid API key. Please check your OPENWEATHER_API_KEY.")
    ∧ (status_code response ≠ 404%Z -> status_code response ≠ 401%Z ->
       answer = ("❌ API Error: " ++ pretty (status_code response))%string).
Proof.
  intros Hok Hstatus Hget.
  rewrite get_current_weather_admitted, get_forecast_admitted by done.
  cbn [snd]. rewrite !Hget. rewrite !answer_of_status by done.
  eexists. split_and!; [done|done|..].
  - intros ->. done.
  - intros ->. done.
  - intros H404 H401. by rewrite !bool_decide_false.
Qed.

End Tools.

(** *** Instances of the further properties of the weather server *)

Import WeatherServer Scales OpenWeather Reports Sample.

(** The two formatters on the sample bodies, with the calendar in UTC. *)
Example london_report :
  format_weather_data Decimal.builtins formatting london "metric"
  = Returns
      ("🌍 **London, GB**" ++ newline ++ newline
       ++ "🌡️ **Temperature:** 12.3°C" ++ newline
       ++ "   Feels like: 11.6°C" ++ newline
       ++ "   Min: 10.9°C | Max: 13.4°C" ++ newline ++ newline
       ++ "☁️ **Conditions:** Broken Clouds" ++ newline
       ++ "💧 **Humidity:** 78%" ++ newline
       ++ "🌪️ **Wind Speed:** 4.1 m/s" ++ newline
       ++ "📊 **Pressure:** 1021 hPa" ++ newline
       ++ "☁️ **Cloudiness:** 75%")%string.
Proof. vm_compute. reflexivity. Qed.

Example paris_forecast :
  format_forecast_data Decimal.builtins formatting paris "metric"
  = Returns
      ("📅 **5-Day Forecast for Paris, FR**" ++ newline ++ newline
       ++ "📆 **Monday, November 04**" ++ newline
       ++ "  ⏰ 13:00: 9.9°C - Light Rain" ++ newline
       ++ "  ⏰ 16:00: 11.2°C - Overcast Clouds" ++ newline ++ newline
       ++ "📆 **Tuesday, November 05**" ++ newline
       ++ "  ⏰ 01:00: 8.0°C - Clear Sky" ++ newline)%string.
Proof. vm_compute. reflexivity. Qed.

Example london_now :
  get_current_weather Decimal.builtins formatting
    (answering (Done (mkHttpResponse 200 (Done london)))) Sample.environ
    "London" "imperial" idle
  = (mkWire 1
       [mkRequest "https://api.openweathermap.org/data/2.5/weather"
          [("q", "London"); ("appid", "0123456789abcdef");
           ("units", "imperial")] 10],
     format_weather_data Decimal.builtins formatting london "imperial").
Proof. vm_compute. reflexivity. Qed.

Lemma same_scale_is_echoed_witness :
  convert_temperature Decimal.builtins "25" "celsius" "C"
  = Returns "✅ 25.0° Celsius = 25.0° Celsius".
Proof.
  apply (same_scale_is_echoed Decimal.builtins "25" "celsius" "C" (25 # 1)%Q
           Celsius);
    [reflexivity|reflexivity|reflexivity|by left|by right|reflexivity].
Defined.

Lemma conversion_agrees_with_the_helpers_witness :
  convert_temperature Decimal.builtins "300" "K" "f"
  = Returns
      ("🌡️ **Temperature Conversion**" ++ newline ++ "300.0K = 80.33°F")%string.
Proof.
  apply (conversion_agrees_with_the_helpers Decimal.builtins "300" "K" "f"
           (300 # 1)%Q Kelvin Fahrenheit);
    [reflexivity|reflexivity|reflexivity|by right|by right|done|reflexivity].
Defined.

Lemma error_marker_iff_rejected_witness :
  ∃ answer,
    convert_temperature Decimal.builtins "abc" "C" "f" = Returns answer
    ∧ (String.prefix "❌" answer = true
       <-> blank Decimal.builtins "abc" = true
           ∨ blank Decimal.builtins "C" = true
           ∨ blank Decimal.builtins "f" = true
           ∨ is_valid_unit (lower Decimal.builtins "C") = false
           ∨ is_valid_unit (lower Decimal.builtins "f") = false
           ∨ float_of_str Decimal.builtins "abc" = None).
Proof.
  apply (error_marker_iff_rejected Decimal.builtins "abc" "C" "f");
    reflexivity.
Defined.

Lemma empty_weather_list_is_an_error_witness :
  format_weather_data Decimal.builtins formatting (JDict no_conditions) "metric"
  = Returns "❌ Error formatting weather data: list index out of range".
Proof.
  apply (empty_weather_list_is_an_error Decimal.builtins formatting
           no_conditions "metric").
  - intros v Hv. vm_compute in Hv. injection Hv as <-. by eexists.
  - intros v Hv. vm_compute in Hv. injection Hv as <-. by eexists.
  - reflexivity.
Defined.

Lemma forecast_without_entries_witness :
  format_forecast_data Decimal.builtins formatting (JDict no_slots) "imperial"
  = Returns "❌ No forecast data available".
Proof.
  apply (forecast_without_entries Decimal.builtins formatting no_slots
           "imperial").
  - intros v Hv. vm_compute in Hv. injection Hv as <-. by eexists.
  - intros v Hv. vm_compute in Hv. injection Hv as <-. reflexivity.
Defined.

Lemma rejected_arguments_send_nothing_witness :
  ∃ answer,
    get_current_weather Decimal.builtins formatting
      (answering (Done (mkHttpResponse 200 (Done london)))) Sample.environ
      "London" "Metric" idle
    = (idle, Returns answer)
    ∧ get_forecast Decimal.builtins formatting
        (answering (Done (mkHttpResponse 200 (Done london)))) Sample.environ
        "London" "Metric" idle
      = (idle, Returns answer)
    ∧ String.prefix "❌ Error: " answer = true.
Proof.
  apply (rejected_arguments_send_nothing Decimal.builtins formatting
           (answering (Done (mkHttpResponse 200 (Done london))))
           Sample.environ "London" "Metric" idle).
  intros (_ & _ & Hunits).
  exact (bool_decide_eq_false_1 ("Metric" ∈ ["metric"; "imperial"]) eq_refl
           Hunits).
Defined.

Lemma admitted_arguments_send_one_request_witness :
  sent (get_current_weather Decimal.builtins formatting
          (answering (Failed (Other timed_out))) Sample.environ
          " Rome " "metric" idle).1
  = [mkRequest "https://api.openweathermap.org/data/2.5/weather"
       [("q", " Rome "); ("appid", "0123456789abcdef"); ("units", "metric")]
       10]
  ∧ sent (get_forecast Decimal.builtins formatting
            (answering (Failed (Other timed_out))) Sample.environ
            " Rome " "metric" idle).1
    = [mkRequest "https://api.openweathermap.org/data/2.5/forecast"
         [("q", " Rome "); ("appid", "0123456789abcdef"); ("units", "metric")]
         10].
Proof.
  apply (admitted_arguments_send_one_request Decimal.builtins formatting
           (answering (Failed (Other timed_out))) Sample.environ
           " Rome " "metric" idle).
  split_and!; [reflexivity|reflexivity|].
  exact (bool_decide_eq_true_1 ("metric" ∈ ["metric"; "imperial"]) eq_refl).
Defined.

Lemma tools_answer_with_a_string_witness :
  ∃ current forecast,
    (get_current_weather Decimal.builtins formatting
       (answering (Failed (Other timed_out))) Sample.environ
       "London" "metric" idle).2
    = Returns current
    ∧ (get_forecast Decimal.builtins formatting
         (answering (Failed (Other timed_out))) Sample.environ
         "London" "metric" idle).2
      = Returns forecast.
Proof.
  apply (tools_answer_with_a_string Decimal.builtins formatting
           (answering (Failed (Other timed_out))) Sample.environ
           "London" "metric" idle).
  intros request w. reflexivity.
Defined.

Lemma cancelled_request_is_not_answered_witness :
  (get_current_weather Decimal.builtins formatting
     (answering (Failed (Other Faults.cancelled))) Sample.environ
     "London" "metric" idle).2
  = Raises Faults.cancelled
  ∧ (get_forecast Decimal.builtins formatting
       (answering (Failed (Other Faults.cancelled))) Sample.environ
       "London" "metric" idle).2
    = Raises Faults.cancelled.
Proof.
  apply (cancelled_request_is_not_answered Decimal.builtins formatting
           (answering (Failed (Other Faults.cancelled))) Sample.environ
           "London" "metric" idle Faults.cancelled).
  - split_and!; [reflexivity|reflexivity|].
    exact (bool_decide_eq_true_1 ("metric" ∈ ["metric"; "imperial"]) eq_refl).
  - reflexivity.
  - intros request. reflexivity.
Defined.

Lemma status_errors_are_reported_witness :
  ∃ answer,
    (get_current_weather Decimal.builtins formatting
       (answering (Done not_found)) Sample.environ "Atlantis" "metric" idle).2
    = Returns answer
    ∧ (get_forecast Decimal.builtins formatting
         (answering (Done not_found)) Sample.environ "Atlantis" "metric" idle).2
      = Returns answer
    ∧ (status_code not_found = 404%Z ->
       answer = "❌ City not found: Atlantis")
    ∧ (status_code not_found = 401%Z ->
       answer = "❌ Invalid API key. Please check your OPENWEATHER_API_KEY.")
    ∧ (status_code not_found ≠ 404%Z -> status_code not_found ≠ 401%Z ->
       answer = ("❌ API Error: " ++ pretty (status_code not_found))%string).
Proof.
  apply (status_errors_are_reported Decimal.builtins formatting
           (answering (Done not_found)) Sample.environ "Atlantis" "metric" idle
           not_found).
  - split_and!; [reflexivity|reflexivity|].
    exact (bool_decide_eq_true_1 ("metric" ∈ ["metric"; "imperial"]) eq_refl).
  - reflexivity.
  - intros request. reflexivity.
Defined.
